(** * chf-enquiries-map: booking widget front end

    A shallow embedding of the view logic of the repository:

    - [CalendarApi]        src/lib/calendar-api.ts
    - [CalendarHeatMap]    src/components/CalendarHeatMap.tsx
    - [DaySlots]           the day-slot picker component
    - [ServiceAreaMap]     src/components/ServiceAreaMap.tsx
    - [LeadInfoAccordion]  src/components/LeadInfoAccordion.tsx

    React components are modelled as a record of view state, transition
    functions for the handlers (returning the new state together with the
    calls made to the outside: backend requests, parent callbacks), and a
    pure [render] function from props and state to a view tree.  A button
    of the view tree carries its [disabled] attribute and the call its
    [onClick] handler makes.

    JavaScript strings are [string] (one character per code unit), [number]
    fields that hold counts and hours are [Z], a value that may be [null]
    or [undefined] is an [option]. *)

From stdpp Require Import base numbers list strings pretty gmap sets.

Open Scope string_scope.
Open Scope list_scope.
Open Scope Z_scope.

(** ** JavaScript helpers *)

Module Js.

(** Truthiness of a string: every string but the empty one. *)
Definition truthy (s : string) : bool :=
  if decide (s = "") then false else true.

(** Truthiness of [string | null | undefined]. *)
Definition truthy_opt (o : option string) : bool :=
  match o with
  | Some s => truthy s
  | None => false
  end.

(** [a || b] where [a : string | undefined] and [b] is a string literal. *)
Definition or_else (a : option string) (b : string) : string :=
  match a with
  | Some s => if truthy s then s else b
  | None => b
  end.

(** A number produced by [parseInt]: an integer or [NaN]. *)
Inductive number : Type :=
| NaN
| Int (z : Z).

(** What a [catch] clause may receive: an [Error] object with its message,
    or any other value. *)
Inductive thrown : Type :=
| Error (message : string)
| NotAnError.

End Js.

(** ** lib/calendar-api.ts *)

Module CalendarApi.

Record DayData : Type := {
  date : string;
  day_name : string;
  day_number : Z;
  month_name : string;
  available_count : Z;
  priority : string;
  label : string;
  color : string;
  icon : string;
  conversionRate : string;
  message : string;
  priorityScore : Z
}.

(** One entry of [priority_breakdown]. *)
Record Tier : Type := {
  tier_label : string;
  days : list DayData;
  total_slots : Z
}.

Record PriorityBreakdown : Type := {
  critical : Tier;
  urgent : Tier;
  warm : Tier;
  cooling : Tier
}.

Record HeatMapResponse : Type := {
  region : string;
  service_area_name : string;
  coverage_description : string;
  priority_breakdown : PriorityBreakdown;
  total_slots_available : Z
}.

Inductive Period : Type := morning_tag | afternoon_tag | evening_tag.

Record TimeSlot : Type := {
  event_id : string;
  datetime : string;
  time : string;
  hour : Z;
  period : Period
}.

Record GroupedByPeriod : Type := {
  morning : list TimeSlot;
  afternoon : list TimeSlot;
  evening : list TimeSlot
}.

Record DaySlotsResponse : Type := {
  ds_region : string;
  ds_service_area_name : string;
  ds_date : string;
  day_display : string;
  ds_total_slots : Z;
  slots : list TimeSlot;
  grouped_by_period : GroupedByPeriod
}.

(** The [body] option handed to [supabase.functions.invoke]. *)
Inductive InvokeBody : Type :=
| HeatMapBody (postcode : Js.number) (days_ahead : Z)
| DaySlotsBody (postcode : Js.number) (date : string).

(** The [error] member of an invoke result, when it is not [null]: an
    object whose [message] may be missing or empty. *)
Record FunctionsError : Type := { error_message : option string }.

Section Backend.

(** The payload the backend sends back; the functions below return it
    under a type cast, which leaves the value as it is. *)
Context {Data : Type}.

Record InvokeResult : Type := {
  data : Data;
  error : option FunctionsError
}.

(** The client as the functions use it: [supabase.functions.invoke]. *)
Record SupabaseClient : Type := {
  functions_invoke : string → InvokeBody → InvokeResult
}.

(** The built-in [parseInt]. *)
Variable parseInt : string → Js.number.

(** [getSupabase ()] of lib/supabase, [None] when it returns a falsy
    value. *)
Variable getSupabase : option SupabaseClient.

(** The outcome of awaiting one of the two calls: the value returned or
    the [Error] thrown. *)
Definition Outcome : Type := Js.thrown + Data.

Definition getCalendarHeatMap (postcode : string) (daysAhead : option Z)
  : Outcome :=
  let daysAhead := default 14 daysAhead in
  match getSupabase with
  | None => inl (Js.Error "Supabase client not available")
  | Some supabase =>
      let r := functions_invoke supabase "get-calendar-heatmap"
                 (HeatMapBody (parseInt postcode) daysAhead) in
      match error r with
      | Some e =>
          inl (Js.Error (Js.or_else (error_message e)
                           "Failed to fetch calendar availability"))
      | None => inr (data r)
      end
  end.

Definition getDaySlots (postcode : string) (date : string) : Outcome :=
  match getSupabase with
  | None => inl (Js.Error "Supabase client not available")
  | Some supabase =>
      let r := functions_invoke supabase "get-day-slots"
                 (DaySlotsBody (parseInt postcode) date) in
      match error r with
      | Some e =>
          inl (Js.Error (Js.or_else (error_message e)
                           "Failed to fetch day slots"))
      | None => inr (data r)
      end
  end.

(** The request each function sends when a client is there. *)
Definition heatmap_response (supabase : SupabaseClient)
    (postcode : string) (daysAhead : option Z) : InvokeResult :=
  functions_invoke supabase "get-calendar-heatmap"
    (HeatMapBody (parseInt postcode) (default 14 daysAhead)).

Definition dayslots_response (supabase : SupabaseClient)
    (postcode date : string) : InvokeResult :=
  functions_invoke supabase "get-day-slots"
    (DaySlotsBody (parseInt postcode) date).

(** The failure condition of the error taxonomy: no client, or an error
    member in the remote result. *)
Definition call_fails (remote : SupabaseClient → InvokeResult) : Prop :=
  getSupabase = None ∨
  ∃ supabase e, getSupabase = Some supabase ∧ error (remote supabase) = Some e.

Definition raises (o : Outcome) : Prop := ∃ t, o = inl t.

Definition raises_readable (o : Outcome) : Prop :=
  ∃ m, o = inl (Js.Error m) ∧ m ≠ "".

Definition returns_unchanged (o : Outcome)
    (remote : SupabaseClient → InvokeResult) : Prop :=
  ∃ supabase, getSupabase = Some supabase ∧ o = inr (data (remote supabase)).

End Backend.

End CalendarApi.

(** ** Buttons of the view tree *)

Module Dom.

(** A [<button>]: its class, its [disabled] attribute and the action its
    [onClick] handler performs. *)
Record Button (A : Type) : Type := {
  className : string;
  disabled : bool;
  onClick : A
}.
Arguments className {A} _.
Arguments disabled {A} _.
Arguments onClick {A} _.

(** A click reaches the handler only when the button is not disabled. *)
Definition click {A : Type} (b : Button A) : option A :=
  if disabled b then None else Some (onClick b).

(** [{cond && <Component ... />}]: nothing when [cond] is false, else
    whatever the component returns ([None] for [null]). *)
Definition jsx_and {V : Type} (cond : bool) (element : option V) : list V :=
  if cond then option_list element else [].

End Dom.

(** ** components/CalendarHeatMap.tsx *)

Module CalendarHeatMap.
Import CalendarApi.

Record Props : Type := {
  postcode : string;
  (** whether the optional [onError] callback is supplied *)
  has_onError : bool
}.

Record State : Type := {
  loading : bool;
  heatMapData : option HeatMapResponse;
  error : option string
}.

(** [useState] initial values. *)
Definition initial : State :=
  {| loading := false; heatMapData := None; error := None |}.

(** Calls the component makes to the outside. *)
Inductive Call : Type :=
| GetCalendarHeatMap (postcode : string) (daysAhead : Z)
| OnDaySelect (date : string) (dayData : DayData)
| OnError (message : string).

(** What a button of the view does when clicked. *)
Inductive Action : Type :=
| SelectDay (date : string) (dayData : DayData)
| FetchHeatMap.

Inductive Opacity : Type := half_opacity | full_opacity.

Record DayRowView : Type := {
  row_button : Dom.Button Action;
  row_date : string * string * Z;
  row_message : string;
  row_color : string;
  row_count : Z
}.

Record DayCardView : Type := {
  card_button : Dom.Button Action;
  card_borderColor : string;
  card_opacity : Opacity;
  card_weekday : string;
  card_number : Z;
  card_color : string;
  card_slots : Z
}.

Inductive SectionBody : Type :=
| PriorityGrid (cards : list DayCardView)
| PriorityList (rows : list DayRowView).

Record SectionView : Type := {
  accentColor : string;
  header_icon : option string;
  header_label : string;
  header_slots : Z;
  body : SectionBody
}.

Inductive View : Type :=
| Spinner
| ErrorView (message : string) (retry : Dom.Button Action)
| EnterPostcodePrompt
| HeatMap (area_name : string) (total : Z) (sections : list SectionView).

Definition DayRow (day : DayData) : DayRowView :=
  {| row_button :=
       {| Dom.className := "hs-day-row";
          Dom.disabled := bool_decide (available_count day = 0);
          Dom.onClick := SelectDay (date day) day |};
     row_date := (day_name day, month_name day, day_number day);
     row_message := message day;
     row_color := color day;
     row_count := available_count day |}.

Definition DayCard (day : DayData) : DayCardView :=
  {| card_button :=
       {| Dom.className := "hs-day-card";
          Dom.disabled := bool_decide (available_count day = 0);
          Dom.onClick := SelectDay (date day) day |};
     card_borderColor := color day;
     card_opacity :=
       if bool_decide (available_count day = 0) then half_opacity
       else full_opacity;
     card_weekday := day_name day;
     card_number := day_number day;
     card_color := color day;
     card_slots := available_count day |}.

(** The element [PrioritySection] returns for a tier that has days. *)
Definition section_view (tier : Tier) (compact : bool) : SectionView :=
  {| accentColor := Js.or_else (color <$> head (days tier)) "#6B7280";
     header_icon := icon <$> head (days tier);
     header_label := tier_label tier;
     header_slots := total_slots tier;
     body := if compact then PriorityGrid (DayCard <$> days tier)
             else PriorityList (DayRow <$> days tier) |}.

Definition PrioritySection (tier : Tier) (compact : bool)
  : option SectionView :=
  if bool_decide (length (days tier) = 0%nat) then None
  else Some (section_view tier compact).

Definition nonempty_days (tier : Tier) : bool :=
  bool_decide (0 < length (days tier))%nat.

(** The children of the [hs-heatmap-sections] element. *)
Definition priority_sections (b : PriorityBreakdown) : list SectionView :=
  Dom.jsx_and (nonempty_days (critical b)) (PrioritySection (critical b) false)
  ++ Dom.jsx_and (nonempty_days (urgent b)) (PrioritySection (urgent b) false)
  ++ Dom.jsx_and (nonempty_days (warm b)) (PrioritySection (warm b) true)
  ++ Dom.jsx_and (nonempty_days (cooling b)) (PrioritySection (cooling b) true).

Definition allDays (b : PriorityBreakdown) : list DayData :=
  days (critical b) ++ days (urgent b) ++ days (warm b) ++ days (cooling b).

Definition retry_button : Dom.Button Action :=
  {| Dom.className := "hs-button hs-button-primary mt-3";
     Dom.disabled := false;
     Dom.onClick := FetchHeatMap |}.

Definition render (s : State) : View :=
  if loading s then Spinner
  else if Js.truthy_opt (error s) then
    ErrorView (default "" (error s)) retry_button
  else
    match heatMapData s with
    | None => EnterPostcodePrompt
    | Some heatMapData =>
        HeatMap (service_area_name heatMapData)
                (total_slots_available heatMapData)
                (priority_sections (priority_breakdown heatMapData))
    end.

(** [fetchHeatMap] up to its [await]: the two state updates and the
    request. *)
Definition fetchHeatMap_begin (p : Props) (s : State) : State * list Call :=
  ({| loading := true; heatMapData := heatMapData s; error := None |},
   [GetCalendarHeatMap (postcode p) 14]).

(** [fetchHeatMap] from the point where the awaited call settles. *)
Definition fetchHeatMap_settle (p : Props)
    (outcome : Js.thrown + HeatMapResponse) (s : State)
  : State * list Call :=
  match outcome with
  | inr data =>
      ({| loading := false; heatMapData := Some data; error := error s |},
       [])
  | inl err =>
      let message :=
        match err with
        | Js.Error m => m
        | Js.NotAnError => "Failed to load availability"
        end in
      ({| loading := false; heatMapData := heatMapData s;
          error := Some message |},
       if has_onError p then [OnError message] else [])
  end.

(** The body of the effect that depends on [postcode]. *)
Definition postcode_effect (p : Props) (s : State) : State * list Call :=
  if Js.truthy (postcode p) && bool_decide (String.length (postcode p) = 4%nat)
  then fetchHeatMap_begin p s
  else (s, []).

Definition handle (p : Props) (a : Action) (s : State) : State * list Call :=
  match a with
  | SelectDay date dayData => (s, [OnDaySelect date dayData])
  | FetchHeatMap => fetchHeatMap_begin p s
  end.

(** A click on a button of the view. *)
Definition press (p : Props) (b : Dom.Button Action) (s : State)
  : State * list Call :=
  match Dom.click b with
  | Some a => handle p a s
  | None => (s, [])
  end.

(** The buttons of the day entries of a section, in display order. *)
Definition day_buttons (v : SectionView) : list (Dom.Button Action) :=
  match body v with
  | PriorityGrid cards => card_button <$> cards
  | PriorityList rows => row_button <$> rows
  end.

(** The priority sections of a view, none when it shows no heat map. *)
Definition rendered_sections (v : View) : list SectionView :=
  match v with
  | HeatMap _ _ sections => sections
  | _ => []
  end.

(** The four tiers in the order of the response type, each with the
    layout its section is asked for: [false] for the detailed list,
    [true] for the compact grid. *)
Definition tiers (b : PriorityBreakdown) : list (Tier * bool) :=
  [(critical b, false); (urgent b, false); (warm b, true); (cooling b, true)].

(** What is asked of the selection control [b] of the day entry [day]. *)
Definition selectable_unless_empty (day : DayData) (b : Dom.Button Action)
  : Prop :=
  (Dom.disabled b = true ↔ available_count day = 0)
  ∧ (0 < available_count day →
     ∀ p s, press p b s = (s, [OnDaySelect (date day) day])).

(** What happens to a component instance: its [postcode] prop changes (the
    effect, whose dependency is [postcode], runs again), a pending request
    settles, or the retry control is clicked.  A component is mounted with
    the empty postcode, for which the effect does nothing; mounting it with
    another postcode is [mount] followed by [SetPostcode]. *)
Inductive Event : Type :=
| SetPostcode (postcode : string)
| Settled (outcome : Js.thrown + HeatMapResponse)
| ClickRetry.

Record Instance : Type := { props : Props; state : State }.

Definition mount (has_onError : bool) : Instance :=
  {| props := {| postcode := ""; has_onError := has_onError |};
     state := initial |}.

Definition step (i : Instance) (e : Event) : Instance * list Call :=
  match e with
  | SetPostcode pc =>
      if bool_decide (pc = postcode (props i)) then (i, [])
      else
        let p := {| postcode := pc; has_onError := has_onError (props i) |} in
        let '(s, calls) := postcode_effect p (state i) in
        ({| props := p; state := s |}, calls)
  | Settled outcome =>
      let '(s, calls) := fetchHeatMap_settle (props i) outcome (state i) in
      ({| props := props i; state := s |}, calls)
  | ClickRetry =>
      match render (state i) with
      | ErrorView _ retry =>
          let '(s, calls) := press (props i) retry (state i) in
          ({| props := props i; state := s |}, calls)
      | _ => (i, [])
      end
  end.

Fixpoint run (i : Instance) (es : list Event) : Instance * list Call :=
  match es with
  | [] => (i, [])
  | e :: es =>
      let '(i1, c1) := step i e in
      let '(i2, c2) := run i1 es in
      (i2, c1 ++ c2)
  end.

End CalendarHeatMap.

(** ** The day-slot picker component ([DaySlots]) *)

Module DaySlots.
Import CalendarApi.

Record Props : Type := {
  postcode : string;
  date : string;
  dayData : DayData;
  (** whether the optional [onError] callback is supplied *)
  has_onError : bool
}.

Record State : Type := {
  loading : bool;
  slotsData : option DaySlotsResponse;
  error : option string
}.

Definition initial : State :=
  {| loading := false; slotsData := None; error := None |}.

Inductive Meridiem : Type := AM | PM.

Inductive Call : Type :=
| GetDaySlots (postcode : string) (date : string)
| OnSlotSelect (date : string) (slot : Meridiem) (timeSlot : TimeSlot)
| OnBack
| OnError (message : string).

Inductive Action : Type :=
| SlotClick (slot : TimeSlot)
| FetchDaySlots
| Back.

Inductive PeriodIcon : Type := sunrise_icon | sun_icon | moon_icon.

Record SlotButtonView : Type := {
  slot_button : Dom.Button Action;
  slot_borderColor : string;
  slot_time : string
}.

Record SlotPeriodView : Type := {
  period_title : string;
  period_icon : PeriodIcon;
  period_count : nat;
  period_grid : list SlotButtonView
}.

Inductive Content : Type :=
| EmptyState (text : string)
| Periods (sections : list SlotPeriodView).

Record HeaderView : Type := {
  header_background : string;
  back_button : Dom.Button Action;
  header_title : string * string;
  header_meta : string
}.

Inductive View : Type :=
| Spinner
| ErrorView (message : string) (retry : Dom.Button Action)
| Nothing
| Slots (header : HeaderView) (content : Content).

Definition SlotPeriod (title : string) (icon : PeriodIcon)
    (slots : list TimeSlot) (accentColor : string) : SlotPeriodView :=
  {| period_title := title;
     period_icon := icon;
     period_count := length slots;
     period_grid :=
       (λ slot,
          {| slot_button :=
               {| Dom.className := "hs-slot-button";
                  Dom.disabled := false;
                  Dom.onClick := SlotClick slot |};
             slot_borderColor := accentColor;
             slot_time := time slot |}) <$> slots |}.

Definition nonempty (slots : list TimeSlot) : bool :=
  bool_decide (0 < length slots)%nat.

(** The children of the [hs-dayslots-content] element. *)
Definition slots_content (p : Props) (d : DaySlotsResponse) : Content :=
  if bool_decide (ds_total_slots d = 0) then
    EmptyState "No available slots for this day"
  else
    let g := grouped_by_period d in
    Periods
      (Dom.jsx_and (nonempty (morning g))
         (Some (SlotPeriod "Morning" sunrise_icon (morning g)
                  (color (dayData p))))
       ++ Dom.jsx_and (nonempty (afternoon g))
            (Some (SlotPeriod "Afternoon" sun_icon (afternoon g)
                     (color (dayData p))))
       ++ Dom.jsx_and (nonempty (evening g))
            (Some (SlotPeriod "Evening" moon_icon (evening g)
                     (color (dayData p))))).

Definition retry_button : Dom.Button Action :=
  {| Dom.className := "hs-button hs-button-primary mt-3";
     Dom.disabled := false;
     Dom.onClick := FetchDaySlots |}.

Definition render (p : Props) (s : State) : View :=
  if loading s then Spinner
  else if Js.truthy_opt (error s) then
    ErrorView (default "" (error s)) retry_button
  else
    match slotsData s with
    | None => Nothing
    | Some slotsData =>
        Slots {| header_background := color (dayData p);
                 back_button :=
                   {| Dom.className := "hs-dayslots-back";
                      Dom.disabled := false;
                      Dom.onClick := Back |};
                 header_title := (icon (dayData p), day_display slotsData);
                 header_meta := conversionRate (dayData p) |}
              (slots_content p slotsData)
    end.

Definition fetchDaySlots_begin (p : Props) (s : State) : State * list Call :=
  ({| loading := true; slotsData := slotsData s; error := None |},
   [GetDaySlots (postcode p) (date p)]).

Definition fetchDaySlots_settle (p : Props)
    (outcome : Js.thrown + DaySlotsResponse) (s : State)
  : State * list Call :=
  match outcome with
  | inr data =>
      ({| loading := false; slotsData := Some data; error := error s |}, [])
  | inl err =>
      let message :=
        match err with
        | Js.Error m => m
        | Js.NotAnError => "Failed to load slots"
        end in
      ({| loading := false; slotsData := slotsData s;
          error := Some message |},
       if has_onError p then [OnError message] else [])
  end.

(** The body of the effect that depends on [postcode] and [date]. *)
Definition postcode_date_effect (p : Props) (s : State) : State * list Call :=
  fetchDaySlots_begin p s.

Definition handleSlotClick (p : Props) (slot : TimeSlot) : Call :=
  let period := if bool_decide (hour slot < 12) then AM else PM in
  OnSlotSelect (date p) period slot.

Definition handle (p : Props) (a : Action) (s : State) : State * list Call :=
  match a with
  | SlotClick slot => (s, [handleSlotClick p slot])
  | FetchDaySlots => fetchDaySlots_begin p s
  | Back => (s, [OnBack])
  end.

Definition press (p : Props) (b : Dom.Button Action) (s : State)
  : State * list Call :=
  match Dom.click b with
  | Some a => handle p a s
  | None => (s, [])
  end.

(** What is asked of the button [b] of the time slot [slot]: a click
    calls [onSlotSelect] with the date, the designation and the slot. *)
Definition selects_with_designation (slot : TimeSlot)
    (b : Dom.Button Action) : Prop :=
  ∀ p s, ∃ m,
    press p b s = (s, [OnSlotSelect (date p) m slot])
    ∧ (m = AM ↔ hour slot < 12) ∧ (m = PM ↔ 12 ≤ hour slot).

(** The three buckets in display order, with title and icon. *)
Definition buckets (g : GroupedByPeriod)
  : list (string * PeriodIcon * list TimeSlot) :=
  [("Morning", sunrise_icon, morning g);
   ("Afternoon", sun_icon, afternoon g);
   ("Evening", moon_icon, evening g)].

(** The period sections of a view, none when it shows no slot grid. *)
Definition period_sections (v : View) : list SlotPeriodView :=
  match v with
  | Slots _ (Periods sections) => sections
  | _ => []
  end.

Definition shows_empty_state (v : View) : bool :=
  match v with
  | Slots _ (EmptyState _) => true
  | _ => false
  end.

End DaySlots.

(** ** components/ServiceAreaMap.tsx: the coordinates effect *)

Module ServiceAreaMap.

Record Properties : Type := {
  name : option string;
  type : option string;
  style : option string
}.

Section Features.

(** Coordinates, [number] in the source. *)
Context {number : Type}.

Inductive Geometry : Type :=
| Point (coordinates : list number)
| Polygon (coordinates : list (list (list number))).

(** [properties] is read through [?.], so it may be missing. *)
Record GeoJSONFeature : Type := {
  properties : option Properties;
  geometry : Geometry
}.

Record GeoJSONCollection : Type := {
  features : list GeoJSONFeature
}.

(** What the effect does to the map, and the report to the parent. *)
Inductive Call : Type :=
| MarkerRemove
| MarkerAdd (lng lat : number)
| FlyTo (lng lat : number) (zoom duration : Z)
| OnServiceAreaCheck (inServiceArea : bool) (areaName : option string).

(** The geometry library: [point] and [polygon] of @turf/helpers and
    @turf/boolean-point-in-polygon, taken as total functions. *)
Context {TurfPoint TurfPolygon : Type}.
Variable point : number * number → TurfPoint.
Variable turfPolygon : list (list (list number)) → TurfPolygon.
Variable booleanPointInPolygon : TurfPoint → TurfPolygon → bool.

(** [feature.properties?.type === 'service_area'] *)
Definition is_service_area (feature : GeoJSONFeature) : bool :=
  bool_decide (properties feature ≫= type = Some "service_area").

(** The [for ... of] loop with its [break]: the value of [foundArea]
    when the loop is left. *)
Fixpoint foundArea (testPoint : TurfPoint) (fs : list GeoJSONFeature)
  : option string :=
  match fs with
  | [] => None
  | feature :: rest =>
      match geometry feature with
      | Polygon coords =>
          if is_service_area feature then
            let poly := turfPolygon coords in
            if booleanPointInPolygon testPoint poly then
              Some (Js.or_else (properties feature ≫= name) "Unknown Area")
            else foundArea testPoint rest
          else foundArea testPoint rest
      | Point _ => foundArea testPoint rest
      end
  end.

(** The effect that depends on [coordinates], [geoJsonData] and
    [onServiceAreaCheck].  [map_current] and [marker_current] tell
    whether the two refs hold an object. *)
Definition coordinates_effect (map_current marker_current : bool)
    (coordinates : option (number * number))
    (geoJsonData : option GeoJSONCollection)
    (has_onServiceAreaCheck : bool) : list Call :=
  if negb map_current then []
  else
    match coordinates with
    | None => []
    | Some (lng, lat) =>
        (if marker_current then [MarkerRemove] else [])
        ++ [MarkerAdd lng lat]
        ++ [FlyTo lng lat 10 1500]
        ++ match geoJsonData with
           | Some collection =>
               if has_onServiceAreaCheck then
                 let found := foundArea (point (lng, lat))
                                (features collection) in
                 [OnServiceAreaCheck (bool_decide (found ≠ None)) found]
               else []
           | None => []
           end
    end.

(** The reports made to the parent among the calls of an effect. *)
Definition reports (calls : list Call) : list (bool * option string) :=
  omap (λ c, match c with
             | OnServiceAreaCheck b n => Some (b, n)
             | _ => None
             end) calls.

(** The features the check looks at, in the dataset's order. *)
Definition is_service_polygon (f : GeoJSONFeature) : bool :=
  match geometry f with
  | Polygon _ => is_service_area f
  | Point _ => false
  end.

Definition service_area_polygons (fs : list GeoJSONFeature)
  : list GeoJSONFeature :=
  filter (λ f, is_service_polygon f = true) fs.

(** Whether a feature is a polygon that contains the point. *)
Definition contains (testPoint : TurfPoint) (f : GeoJSONFeature) : bool :=
  match geometry f with
  | Polygon coords => booleanPointInPolygon testPoint (turfPolygon coords)
  | Point _ => false
  end.

(** The first service-area polygon that contains the point. *)
Definition first_containing (testPoint : TurfPoint)
    (fs : list GeoJSONFeature) : option GeoJSONFeature :=
  head (filter (λ f, contains testPoint f = true)
          (service_area_polygons fs)).

End Features.

Arguments Geometry : clear implicits.
Arguments GeoJSONFeature : clear implicits.
Arguments GeoJSONCollection : clear implicits.
Arguments Call : clear implicits.

(** An instance of the geometry library on integer coordinates, for closed
    examples: even-odd ray casting on the outer ring, holes excluded. *)
Module IntGeometry.

Definition crosses (x y : Z) (a b : list Z) : bool :=
  match a, b with
  | xi :: yi :: _, xj :: yj :: _ =>
      if bool_decide ((y < yi) ↔ (y < yj)) then false
      else
        let d := yj - yi in
        if bool_decide (0 < d)
        then bool_decide ((x - xi) * d < (xj - xi) * (y - yi))
        else bool_decide ((xj - xi) * (y - yi) < (x - xi) * d)
  | _, _ => false
  end.

Fixpoint crossings (x y : Z) (ring : list (list Z)) : nat :=
  match ring with
  | a :: (b :: _) as rest =>
      ((if crosses x y a b then 1 else 0) + crossings x y rest)%nat
  | _ => 0%nat
  end.

Definition in_ring (x y : Z) (ring : list (list Z)) : bool :=
  Nat.odd (crossings x y ring).

Definition point (c : Z * Z) : Z * Z := c.

Definition polygon (rings : list (list (list Z))) : list (list (list Z)) :=
  rings.

Definition booleanPointInPolygon (p : Z * Z)
    (rings : list (list (list Z))) : bool :=
  match rings with
  | [] => false
  | outer :: holes =>
      in_ring p.1 p.2 outer
      && forallb (λ h, negb (in_ring p.1 p.2 h)) holes
  end.

Definition effect :=
  coordinates_effect point polygon booleanPointInPolygon.

End IntGeometry.

End ServiceAreaMap.

(** ** components/LeadInfoAccordion.tsx *)

Module LeadInfoAccordion.

(** Modelled from the spec: the type declarations [LeadField],
    [LeadSection] and [LeadData] of lib/lead-api, which the component
    imports.  A lead record is an identifier plus a fixed, ordered set of
    named sections (contact, lead management, property, water assessment,
    appointment, referrals, sales notes, status flags), each section a
    mapping from field key to a field record with a presentation label
    and an optional display value.  The key names are those of
    [sectionOrder] in the component. *)
Record LeadField : Type := {
  label : string;
  value : option string
}.

Record LeadSection : Type := {
  section_label : string;
  fields : list (string * LeadField)
}.

Record LeadSections : Type := {
  contact : LeadSection;
  leadManagement : LeadSection;
  property : LeadSection;
  waterAssessment : LeadSection;
  appointment : LeadSection;
  referrals : LeadSection;
  salesNotes : LeadSection;
  statusFlags : LeadSection
}.

Record LeadData : Type := {
  id : string;
  sections : LeadSections
}.

(** [keyof typeof leadData.sections] *)
Inductive SectionKey : Type :=
| Kcontact | KleadManagement | Kproperty | KwaterAssessment
| Kappointment | Kreferrals | KsalesNotes | KstatusFlags.

Definition key_name (k : SectionKey) : string :=
  match k with
  | Kcontact => "contact"
  | KleadManagement => "leadManagement"
  | Kproperty => "property"
  | KwaterAssessment => "waterAssessment"
  | Kappointment => "appointment"
  | Kreferrals => "referrals"
  | KsalesNotes => "salesNotes"
  | KstatusFlags => "statusFlags"
  end.

(** [leadData.sections[sectionKey]] *)
Definition get_section (s : LeadSections) (k : SectionKey) : LeadSection :=
  match k with
  | Kcontact => contact s
  | KleadManagement => leadManagement s
  | Kproperty => property s
  | KwaterAssessment => waterAssessment s
  | Kappointment => appointment s
  | Kreferrals => referrals s
  | KsalesNotes => salesNotes s
  | KstatusFlags => statusFlags s
  end.

(** [Object.keys (leadData.sections)]: the own keys of the sections
    object, which are the eight section names. *)
Definition Object_keys (s : LeadSections) : list string :=
  key_name <$>
    [Kcontact; KleadManagement; Kproperty; KwaterAssessment;
     Kappointment; Kreferrals; KsalesNotes; KstatusFlags].

Record Props : Type := {
  leadData : option LeadData;
  isLoading : bool;
  error : option string
}.

(** The component's only state, [expandedSections : Set<string>]. *)
Definition initial : gset string :=
  list_to_set ["contact"; "leadManagement"; "property"; "waterAssessment";
               "appointment"; "referrals"; "salesNotes"; "statusFlags"].

Definition toggleSection (sectionKey : string) (prev : gset string)
  : gset string :=
  if bool_decide (sectionKey ∈ prev) then prev ∖ {[sectionKey]}
  else prev ∪ {[sectionKey]}.

Definition expandAll (leadData : option LeadData) (prev : gset string)
  : gset string :=
  match leadData with
  | Some d => list_to_set (Object_keys (sections d))
  | None => prev
  end.

Definition collapseAll (prev : gset string) : gset string := ∅.

Definition sectionOrder : list SectionKey :=
  [Kcontact; KleadManagement; Kproperty; KwaterAssessment;
   Kappointment; Kreferrals; KsalesNotes; KstatusFlags].

Definition allExpanded (expandedSections : gset string) : bool :=
  bool_decide (size expandedSections = length sectionOrder).

Definition allCollapsed (expandedSections : gset string) : bool :=
  bool_decide (size expandedSections = 0%nat).

Inductive Action : Type :=
| ToggleSection (sectionKey : string)
| ExpandAll
| CollapseAll.

Definition has_value (f : LeadField) : bool := Js.truthy_opt (value f).

Record FieldView : Type := {
  field_label : string;
  field_display : string;
  field_isEmpty : bool
}.

Definition FieldDisplay (field : LeadField) : FieldView :=
  {| field_label := label field;
     field_display := Js.or_else (value field) "—";
     field_isEmpty := negb (has_value field) |}.

Record ContentView : Type := {
  populated_grid : list FieldView;
  empty_details : list FieldView;
  no_data_note : bool
}.

Definition SectionContent (section : LeadSection) : ContentView :=
  let populatedFields := filter (λ kf, has_value kf.2 = true) (fields section) in
  let emptyFields := filter (λ kf, has_value kf.2 = false) (fields section) in
  {| populated_grid := (λ kf, FieldDisplay kf.2) <$> populatedFields;
     empty_details := (λ kf, FieldDisplay kf.2) <$> emptyFields;
     no_data_note :=
       bool_decide (length populatedFields = 0%nat)
       && bool_decide (length emptyFields = 0%nat) |}.

Record AccordionSectionView : Type := {
  header_button : Dom.Button Action;
  header_label : string;
  header_fieldCount : nat;
  header_isExpanded : bool;
  content : option ContentView
}.

Definition AccordionSection (sectionKey : string) (section : LeadSection)
    (isExpanded : bool) : AccordionSectionView :=
  {| header_button :=
       {| Dom.className := "w-full flex items-center justify-between";
          Dom.disabled := false;
          Dom.onClick := ToggleSection sectionKey |};
     header_label := section_label section;
     header_fieldCount :=
       length (filter (λ kf, has_value kf.2 = true) (fields section));
     header_isExpanded := isExpanded;
     content := if isExpanded then Some (SectionContent section) else None |}.

Inductive View : Type :=
| LoadingSkeleton
| ErrorDisplay (error : string)
| NoContact
| Panel (lead_id : string)
        (expand_all collapse_all : Dom.Button Action)
        (accordion : list AccordionSectionView).

Definition expand_all_button (expandedSections : gset string)
  : Dom.Button Action :=
  {| Dom.className := "text-xs px-2 py-1 rounded transition-colors";
     Dom.disabled := allExpanded expandedSections;
     Dom.onClick := ExpandAll |}.

Definition collapse_all_button (expandedSections : gset string)
  : Dom.Button Action :=
  {| Dom.className := "text-xs px-2 py-1 rounded transition-colors";
     Dom.disabled := allCollapsed expandedSections;
     Dom.onClick := CollapseAll |}.

Definition render (p : Props) (expandedSections : gset string) : View :=
  if isLoading p then LoadingSkeleton
  else if Js.truthy_opt (error p) then ErrorDisplay (default "" (error p))
  else
    match leadData p with
    | None => NoContact
    | Some leadData =>
        Panel (id leadData)
          (expand_all_button expandedSections)
          (collapse_all_button expandedSections)
          ((λ sectionKey,
              AccordionSection (key_name sectionKey)
                (get_section (sections leadData) sectionKey)
                (bool_decide (key_name sectionKey ∈ expandedSections)))
             <$> sectionOrder)
    end.

Definition handle (p : Props) (a : Action) (s : gset string) : gset string :=
  match a with
  | ToggleSection sectionKey => toggleSection sectionKey s
  | ExpandAll => expandAll (leadData p) s
  | CollapseAll => collapseAll s
  end.

Definition press (p : Props) (b : Dom.Button Action) (s : gset string)
  : gset string :=
  match Dom.click b with
  | Some a => handle p a s
  | None => s
  end.

(** Every button of a view. *)
Definition buttons (v : View) : list (Dom.Button Action) :=
  match v with
  | Panel _ expand_all collapse_all accordion =>
      expand_all :: collapse_all :: (header_button <$> accordion)
  | _ => []
  end.

(** The expanded-states the panel can be in: the initial one, and those a
    click on a button of the rendered panel leads to, whatever the props
    of that render. *)
Inductive reachable : gset string → Prop :=
| reachable_initial : reachable initial
| reachable_press (p : Props) (b : Dom.Button Action) (s : gset string) :
    reachable s → b ∈ buttons (render p s) → reachable (press p b s).

(** The eight fixed section keys. *)
Definition section_keys : gset string := list_to_set (key_name <$> sectionOrder).

End LeadInfoAccordion.

(** ** components/ServiceAreaMap.tsx: colours and polygon layers *)

Module ServiceAreaLayers.
Import ServiceAreaMap.

(** Upper case of an ASCII letter, any other character as it is: how a
    pattern under the [i] flag compares characters. *)
Definition upper (a : Ascii.ascii) : Ascii.ascii :=
  let n := Ascii.N_of_ascii a in
  if bool_decide (97 ≤ n ≤ 122)%N then Ascii.ascii_of_N (n - 32) else a.

(** A character the class [[A-F0-9]] accepts under the [i] flag. *)
Definition is_hex (a : Ascii.ascii) : bool :=
  let n := Ascii.N_of_ascii (upper a) in
  bool_decide (48 ≤ n ≤ 57)%N || bool_decide (65 ≤ n ≤ 70)%N.

(** The literal part of the pattern matched at the start of [s]; what
    follows it. *)
Fixpoint literal (pat s : string) : option string :=
  match pat with
  | EmptyString => Some s
  | String p pat =>
      match s with
      | String c s => if bool_decide (upper p = upper c) then literal pat s
                      else None
      | EmptyString => None
      end
  end.

(** The group [([A-F0-9]{6})] matched at the start of [s]. *)
Definition hex6 (s : string) : option string :=
  match s with
  | String a (String b (String c (String d (String e (String f _))))) =>
      if forallb is_hex [a; b; c; d; e; f]
      then Some (String a (String b (String c (String d (String e
                   (String f EmptyString))))))
      else None
  | _ => None
  end.

(** The pattern [/#poly-([A-F0-9]{6})/i] matched at the start of [s]. *)
Definition match_here (s : string) : option string :=
  literal "#poly-" s ≫= hex6.

(** [style.match (...)]: the group of the leftmost match. *)
Fixpoint style_match (s : string) : option string :=
  match match_here s with
  | Some group => Some group
  | None =>
      match s with
      | String _ rest => style_match rest
      | EmptyString => None
      end
  end.

Definition getPolygonColor (style : option string) : string :=
  match style with
  | None => "#3388ff"
  | Some style =>
      if negb (Js.truthy style) then "#3388ff"
      else
        match style_match style with
        | Some group => "#" +:+ group
        | None => "#3388ff"
        end
  end.

Section Layers.
Context {number : Type}.

Abbreviation Feature := (GeoJSONFeature number).

Definition polygon_color (polygon : Feature) : string :=
  getPolygonColor (properties polygon ≫= style).

(** [colorGroups], an object used as a map from colour to polygons: its
    entries in insertion order.  [if (!colorGroups[color])
    colorGroups[color] = []; colorGroups[color].push (polygon)]. *)
Fixpoint push_polygon (color : string) (polygon : Feature)
    (groups : list (string * list Feature)) : list (string * list Feature) :=
  match groups with
  | [] => [(color, [polygon])]
  | (c, polygons) :: rest =>
      if bool_decide (c = color) then (c, polygons ++ [polygon]) :: rest
      else (c, polygons) :: push_polygon color polygon rest
  end.

Definition colorGroups (serviceAreaPolygons : list Feature)
  : list (string * list Feature) :=
  foldl (λ groups polygon,
           push_polygon (polygon_color polygon) polygon groups)
        [] serviceAreaPolygons.

Inductive LayerType : Type := fill | line.

(** Calls on the map object. *)
Inductive MapCall : Type :=
| AddSource (id : string) (features : list Feature)
| AddLayer (id : string) (type : LayerType) (source : string)
           (color : string).

Definition sourceId (index : nat) : string := "service-areas-" +:+ pretty index.
Definition fillLayerId (index : nat) : string :=
  "service-areas-fill-" +:+ pretty index.
Definition lineLayerId (index : nat) : string :=
  "service-areas-line-" +:+ pretty index.

(** One round of the [forEach] over the entries: nothing when the map has
    the source already.  [sources] are the ids of the sources of the
    map. *)
Definition add_group (index : nat) (entry : string * list Feature)
    (sources : gset string) : gset string * list MapCall :=
  if bool_decide (sourceId index ∈ sources) then (sources, [])
  else
    (sources ∪ {[sourceId index]},
     [AddSource (sourceId index) entry.2;
      AddLayer (fillLayerId index) fill (sourceId index) entry.1;
      AddLayer (lineLayerId index) line (sourceId index) entry.1]).

Fixpoint add_groups (index : nat) (entries : list (string * list Feature))
    (sources : gset string) : gset string * list MapCall :=
  match entries with
  | [] => (sources, [])
  | entry :: rest =>
      let '(sources1, calls1) := add_group index entry sources in
      let '(sources2, calls2) := add_groups (S index) rest sources1 in
      (sources2, calls1 ++ calls2)
  end.

(** The effect that depends on [geoJsonData] and [mapLoaded]. *)
Definition layers_effect (map_current mapLoaded : bool)
    (geoJsonData : option (GeoJSONCollection number))
    (sources : gset string) : gset string * list MapCall :=
  if negb map_current || negb mapLoaded then (sources, [])
  else
    match geoJsonData with
    | None => (sources, [])
    | Some collection =>
        let serviceAreaPolygons :=
          service_area_polygons (features collection) in
        add_groups 0 (colorGroups serviceAreaPolygons) sources
    end.

(** [groups] holds the polygons of [polygons] by colour: one entry per
    colour that occurs, with the polygons of that colour in their order. *)
Definition grouped (groups : list (string * list Feature))
    (polygons : list Feature) : Prop :=
  NoDup groups.*1
  ∧ ∀ c lc, (c, lc) ∈ groups
            ↔ lc ≠ [] ∧ lc = filter (λ p, polygon_color p = c) polygons.

(** The calls that create the source and the two layers of a group. *)
Definition group_calls (index : nat) (entry : string * list Feature)
  : list MapCall :=
  [AddSource (sourceId index) entry.2;
   AddLayer (fillLayerId index) fill (sourceId index) entry.1;
   AddLayer (lineLayerId index) line (sourceId index) entry.1].

End Layers.

End ServiceAreaLayers.

(** ** A whole fetch: the component's handler run through the backend call *)

Module Fetch.
Import CalendarApi.

Section WithBackend.
Variable parseInt : string → Js.number.

(** [fetchHeatMap] of the heat map from start to end, when nothing else
    happens while the call is awaited. *)
Definition fetchHeatMap
    (getSupabase : option (@SupabaseClient HeatMapResponse))
    (p : CalendarHeatMap.Props) (s : CalendarHeatMap.State)
  : CalendarHeatMap.State * list CalendarHeatMap.Call :=
  let '(s1, calls1) := CalendarHeatMap.fetchHeatMap_begin p s in
  let '(s2, calls2) :=
    CalendarHeatMap.fetchHeatMap_settle p
      (getCalendarHeatMap parseInt getSupabase
         (CalendarHeatMap.postcode p) (Some 14)) s1 in
  (s2, calls1 ++ calls2).

(** [fetchDaySlots] of the day-slot picker, likewise. *)
Definition fetchDaySlots
    (getSupabase : option (@SupabaseClient DaySlotsResponse))
    (p : DaySlots.Props) (s : DaySlots.State)
  : DaySlots.State * list DaySlots.Call :=
  let '(s1, calls1) := DaySlots.fetchDaySlots_begin p s in
  let '(s2, calls2) :=
    DaySlots.fetchDaySlots_settle p
      (getDaySlots parseInt getSupabase
         (DaySlots.postcode p) (DaySlots.date p)) s1 in
  (s2, calls1 ++ calls2).

End WithBackend.

End Fetch.

(** ** Views and traces: what the properties below speak of *)

Module Observe.

(** The payload of a successful settle event. *)
Definition delivered (e : CalendarHeatMap.Event)
  : option CalendarApi.HeatMapResponse :=
  match e with
  | CalendarHeatMap.Settled (inr data) => Some data
  | _ => None
  end.

(** The postcode and horizon of a backend request. *)
Definition requested (c : CalendarHeatMap.Call) : option (string * Z) :=
  match c with
  | CalendarHeatMap.GetCalendarHeatMap postcode daysAhead =>
      Some (postcode, daysAhead)
  | _ => None
  end.

(** The slots whose buttons a view of the day-slot picker shows, in display
    order. *)
Definition slot_actions (v : DaySlots.View) : list DaySlots.Action :=
  DaySlots.period_sections v
    ≫= λ sec, (λ b, Dom.onClick (DaySlots.slot_button b))
                 <$> DaySlots.period_grid sec.

(** The accordion sections of a view of the lead panel. *)
Definition accordion_sections (v : LeadInfoAccordion.View)
  : list LeadInfoAccordion.AccordionSectionView :=
  match v with
  | LeadInfoAccordion.Panel _ _ _ accordion => accordion
  | _ => []
  end.


End Observe.

(** ** Sample data for closed examples *)

Module Samples.
Import CalendarApi.

Definition today : DayData :=
  {| date := "2025-03-03"; day_name := "Mon"; day_number := 3;
     month_name := "Mar"; available_count := 3; priority := "critical";
     label := "Today"; color := "#DC2626"; icon := "!";
     conversionRate := "85%"; message := "Book now";
     priorityScore := 100 |}.

Definition next_week : DayData :=
  {| date := "2025-03-11"; day_name := "Tue"; day_number := 11;
     month_name := "Mar"; available_count := 0; priority := "cooling";
     label := "Next week"; color := "#10B981"; icon := "*";
     conversionRate := "30%"; message := "Fully booked";
     priorityScore := 10 |}.

Definition no_days (l : string) : Tier :=
  {| tier_label := l; days := []; total_slots := 0 |}.

(** One critical day with three slots, one cooling day with none. *)
Definition heatmap : HeatMapResponse :=
  {| region := "VIC"; service_area_name := "Melbourne";
     coverage_description := "Metro";
     priority_breakdown :=
       {| critical := {| tier_label := "Today"; days := [today];
                         total_slots := 3 |};
          urgent := no_days "Hot";
          warm := no_days "Warm";
          cooling := {| tier_label := "Next week"; days := [next_week];
                        total_slots := 0 |} |};
     total_slots_available := 3 |}.

Definition nine : TimeSlot :=
  {| event_id := "e1"; datetime := "2025-03-03T09:00:00"; time := "9:00 AM";
     hour := 9; period := morning_tag |}.

Definition two_pm : TimeSlot :=
  {| event_id := "e2"; datetime := "2025-03-03T14:00:00"; time := "2:00 PM";
     hour := 14; period := afternoon_tag |}.

Definition dayslots : DaySlotsResponse :=
  {| ds_region := "VIC"; ds_service_area_name := "Melbourne";
     ds_date := "2025-03-03"; day_display := "Monday 3 March";
     ds_total_slots := 2; slots := [nine; two_pm];
     grouped_by_period :=
       {| morning := [nine]; afternoon := [two_pm]; evening := [] |} |}.

Definition heat_props : CalendarHeatMap.Props :=
  {| CalendarHeatMap.postcode := "3000";
     CalendarHeatMap.has_onError := true |}.

Definition slot_props : DaySlots.Props :=
  {| DaySlots.postcode := "3000"; DaySlots.date := "2025-03-03";
     DaySlots.dayData := today; DaySlots.has_onError := true |}.

(** A heat-map instance that holds a successful response. *)
Definition heat_loaded : CalendarHeatMap.State :=
  {| CalendarHeatMap.loading := false;
     CalendarHeatMap.heatMapData := Some heatmap;
     CalendarHeatMap.error := None |}.

Definition slots_loaded : DaySlots.State :=
  {| DaySlots.loading := false;
     DaySlots.slotsData := Some dayslots;
     DaySlots.error := None |}.

(** A square service area with corners (0,0) and (10,10). *)
Definition square : list (list (list Z)) :=
  [[[0; 0]; [10; 0]; [10; 10]; [0; 10]; [0; 0]]].

Definition area (n : option string) : ServiceAreaMap.GeoJSONFeature Z :=
  {| ServiceAreaMap.properties :=
       Some {| ServiceAreaMap.name := n;
               ServiceAreaMap.type := Some "service_area";
               ServiceAreaMap.style := Some "#poly-9C27B0-1200-179" |};
     ServiceAreaMap.geometry := ServiceAreaMap.Polygon square |}.

Definition depot : ServiceAreaMap.GeoJSONFeature Z :=
  {| ServiceAreaMap.properties :=
       Some {| ServiceAreaMap.name := Some "Depot";
               ServiceAreaMap.type := Some "depot";
               ServiceAreaMap.style := None |};
     ServiceAreaMap.geometry := ServiceAreaMap.Point [5; 5] |}.

Definition dataset (n : option string) : ServiceAreaMap.GeoJSONCollection Z :=
  {| ServiceAreaMap.features := [depot; area n] |}.

Definition lead : LeadInfoAccordion.LeadData :=
  let empty l := {| LeadInfoAccordion.section_label := l;
                    LeadInfoAccordion.fields := [] |} in
  {| LeadInfoAccordion.id := "c-1";
     LeadInfoAccordion.sections :=
       {| LeadInfoAccordion.contact :=
            {| LeadInfoAccordion.section_label := "Contact";
               LeadInfoAccordion.fields :=
                 [("email", {| LeadInfoAccordion.label := "Email";
                               LeadInfoAccordion.value := Some "a@b.c" |});
                  ("phone", {| LeadInfoAccordion.label := "Phone";
                               LeadInfoAccordion.value := None |})] |};
          LeadInfoAccordion.leadManagement := empty "Lead Management";
          LeadInfoAccordion.property := empty "Property";
          LeadInfoAccordion.waterAssessment := empty "Water Assessment";
          LeadInfoAccordion.appointment := empty "Appointment";
          LeadInfoAccordion.referrals := empty "Referrals";
          LeadInfoAccordion.salesNotes := empty "Sales Notes";
          LeadInfoAccordion.statusFlags := empty "Status Flags" |} |}.

(** A response that announces two slots and files none under a period. *)
Definition dayslots_unfiled : DaySlotsResponse :=
  {| ds_region := "VIC"; ds_service_area_name := "Melbourne";
     ds_date := "2025-03-03"; day_display := "Monday 3 March";
     ds_total_slots := 2; slots := [nine; two_pm];
     grouped_by_period :=
       {| morning := []; afternoon := []; evening := [] |} |}.

Definition lead_props : LeadInfoAccordion.Props :=
  {| LeadInfoAccordion.leadData := Some lead;
     LeadInfoAccordion.isLoading := false;
     LeadInfoAccordion.error := None |}.

End Samples.

(** * Properties *)

(** ** JavaScript helpers *)

Lemma truthy_spec (s : string) : Js.truthy s = true ↔ s ≠ "".
Proof. unfold Js.truthy. case_decide; split; congruence. Qed.

Lemma or_else_nonempty (a : option string) (b : string) :
  b ≠ "" → Js.or_else a b ≠ "".
Proof.
  intros Hb. destruct a as [s|]; simpl; [|done].
  destruct (Js.truthy s) eqn:E; [|done]. by apply truthy_spec.
Qed.

Lemma jsx_and_nonempty {A V : Type} (l : list A) (v : V) :
  Dom.jsx_and (bool_decide (0 < length l)%nat) (Some v)
  = if bool_decide (l = []) then [] else [v].
Proof. by destruct l. Qed.

(** ** lib/calendar-api.ts *)

Section ApiFacts.
Import CalendarApi.
Context {Data : Type}.
Variable parseInt : string → Js.number.
Variable getSupabase : option (@SupabaseClient Data).

Lemma outcome_cases (remote : SupabaseClient → InvokeResult) (dflt : string)
    (o : Outcome) :
  dflt ≠ "" →
  o = match getSupabase with
      | None => inl (Js.Error "Supabase client not available")
      | Some supabase =>
          match error (remote supabase) with
          | Some e => inl (Js.Error (Js.or_else (error_message e) dflt))
          | None => inr (data (remote supabase))
          end
      end →
  (raises o ↔ call_fails getSupabase remote)
  ∧ (call_fails getSupabase remote ∧ raises_readable o
     ∨ ¬ call_fails getSupabase remote
       ∧ returns_unchanged getSupabase o remote).
Proof.
  intros Hd ->. unfold raises, call_fails, raises_readable, returns_unchanged.
  destruct getSupabase as [c|].
  - destruct (error (remote c)) as [e|] eqn:He.
    + assert (Hf : Some c = None ∨
                   ∃ supabase e0, Some c = Some supabase
                                  ∧ error (remote supabase) = Some e0)
        by (right; eauto).
      split; [split; eauto|]. left. split; [done|].
      eexists. split; [done|]. by apply or_else_nonempty.
    + assert (Hf : ¬ (Some c = None ∨
                      ∃ supabase e0, Some c = Some supabase
                                     ∧ error (remote supabase) = Some e0)).
      { intros [?|(c' & e' & [= <-] & He')]; congruence. }
      split.
      * split; [intros [t Ht]; done | intros; contradiction].
      * right. split; [done|]. eauto.
  - split; [split; eauto|]. left. split; [by left|]. eauto.
Qed.

End ApiFacts.

(** C6. [getCalendarHeatMap] and [getDaySlots] raise exactly when the
    backend client is unavailable or the remote call returns an error, and
    then the error carries a non-empty message; otherwise they return the
    payload of the remote response as it is. *)
Theorem api_calls_raise_exactly_on_failure
    (Data : Type) (parseInt : string → Js.number)
    (getSupabase : option (@CalendarApi.SupabaseClient Data))
    (postcode date : string) (daysAhead : option Z) :
  let heat := CalendarApi.getCalendarHeatMap parseInt getSupabase
                postcode daysAhead in
  let heat_remote :=
    λ c, CalendarApi.heatmap_response parseInt c postcode daysAhead in
  let slots := CalendarApi.getDaySlots parseInt getSupabase postcode date in
  let slots_remote :=
    λ c, CalendarApi.dayslots_response parseInt c postcode date in
  ((CalendarApi.raises heat ↔ CalendarApi.call_fails getSupabase heat_remote)
   ∧ (CalendarApi.call_fails getSupabase heat_remote
        ∧ CalendarApi.raises_readable heat
      ∨ ¬ CalendarApi.call_fails getSupabase heat_remote
        ∧ CalendarApi.returns_unchanged getSupabase heat heat_remote))
  ∧ ((CalendarApi.raises slots
      ↔ CalendarApi.call_fails getSupabase slots_remote)
     ∧ (CalendarApi.call_fails getSupabase slots_remote
          ∧ CalendarApi.raises_readable slots
        ∨ ¬ CalendarApi.call_fails getSupabase slots_remote
          ∧ CalendarApi.returns_unchanged getSupabase slots slots_remote)).
Proof.
  split.
  - by apply outcome_cases with (dflt := "Failed to fetch calendar availability").
  - by apply outcome_cases with (dflt := "Failed to fetch day slots").
Qed.

(** ** components/CalendarHeatMap.tsx *)

Section HeatMapFacts.
Import CalendarApi CalendarHeatMap.

Lemma priority_section_element (tier : Tier) (compact : bool) :
  Dom.jsx_and (nonempty_days tier) (PrioritySection tier compact)
  = if bool_decide (days tier = []) then [] else [section_view tier compact].
Proof. unfold nonempty_days, PrioritySection. by destruct (days tier). Qed.

Lemma priority_sections_filter (b : PriorityBreakdown) :
  priority_sections b
  = (λ tc, section_view tc.1 tc.2)
      <$> filter (λ tc, days tc.1 ≠ []) (tiers b).
Proof.
  unfold priority_sections, tiers. rewrite !priority_section_element.
  rewrite !filter_cons, filter_nil. simpl.
  repeat case_bool_decide; repeat case_decide; simpl; congruence.
Qed.

Lemma day_row_selectable (day : DayData) :
  selectable_unless_empty day (row_button (DayRow day)).
Proof.
  split; simpl.
  - apply bool_decide_eq_true.
  - intros Hpos p s. unfold press, Dom.click. simpl.
    rewrite bool_decide_eq_false_2 by lia. done.
Qed.

Lemma day_card_selectable (day : DayData) :
  selectable_unless_empty day (card_button (DayCard day)).
Proof.
  split; simpl.
  - apply bool_decide_eq_true.
  - intros Hpos p s. unfold press, Dom.click. simpl.
    rewrite bool_decide_eq_false_2 by lia. done.
Qed.

Lemma section_buttons_selectable (tier : Tier) (compact : bool) :
  Forall2 selectable_unless_empty (days tier)
    (day_buttons (section_view tier compact)).
Proof.
  unfold day_buttons. destruct compact; simpl;
    rewrite <- list_fmap_compose; apply Forall2_fmap_r, Forall_Forall2_diag,
      Forall_forall; intros day _; simpl.
  - apply day_card_selectable.
  - apply day_row_selectable.
Qed.

Lemma tier_buttons_selectable (tier : Tier) (compact : bool) :
  Forall2 selectable_unless_empty (days tier)
    (Dom.jsx_and (nonempty_days tier) (PrioritySection tier compact)
       ≫= day_buttons).
Proof.
  rewrite priority_section_element. case_bool_decide as Hd.
  - rewrite Hd. constructor.
  - simpl. rewrite app_nil_r. apply section_buttons_selectable.
Qed.

End HeatMapFacts.

(** C1. For every heat-map response the renderer shows exactly the tiers
    whose day list is not empty, in the order critical, urgent, warm,
    cooling; the sections of critical and urgent hold a detailed list with
    one row per day, those of warm and cooling a compact grid with one card
    per day. *)
Theorem heat_map_renders_nonempty_tiers_in_order
    (r : CalendarApi.HeatMapResponse) :
  let b := CalendarApi.priority_breakdown r in
  CalendarHeatMap.rendered_sections
    (CalendarHeatMap.render
       {| CalendarHeatMap.loading := false;
          CalendarHeatMap.heatMapData := Some r;
          CalendarHeatMap.error := None |})
  = (λ tc, CalendarHeatMap.section_view tc.1 tc.2)
      <$> filter (λ tc, CalendarApi.days tc.1 ≠ [])
            [(CalendarApi.critical b, false); (CalendarApi.urgent b, false);
             (CalendarApi.warm b, true); (CalendarApi.cooling b, true)]
  ∧ ∀ tier,
      CalendarHeatMap.body (CalendarHeatMap.section_view tier false)
      = CalendarHeatMap.PriorityList
          (CalendarHeatMap.DayRow <$> CalendarApi.days tier)
      ∧ CalendarHeatMap.body (CalendarHeatMap.section_view tier true)
        = CalendarHeatMap.PriorityGrid
            (CalendarHeatMap.DayCard <$> CalendarApi.days tier).
Proof.
  split; [|done]. simpl. apply priority_sections_filter.
Qed.

(** C2. Every day entry of a response has one selection control in the
    rendered sections (a row of a detailed list or a card of a compact
    grid), in the order of the response; the control is disabled exactly
    when [available_count] is 0, and for a day with [available_count > 0] a
    click calls [onDaySelect] with the day's date and the whole entry. *)
Theorem day_controls_disabled_iff_no_slots (b : CalendarApi.PriorityBreakdown) :
  Forall2 CalendarHeatMap.selectable_unless_empty
    (CalendarHeatMap.allDays b)
    (CalendarHeatMap.priority_sections b ≫= CalendarHeatMap.day_buttons).
Proof.
  unfold CalendarHeatMap.allDays, CalendarHeatMap.priority_sections.
  rewrite !bind_app.
  repeat apply Forall2_app; apply tier_buttons_selectable.
Qed.

(** ** The day-slot picker component *)

Section DaySlotsFacts.
Import CalendarApi DaySlots.

Lemma slot_button_selects (title : string) (icon : PeriodIcon)
    (slots : list TimeSlot) (accent : string) :
  Forall2 selects_with_designation slots
    (slot_button <$> period_grid (SlotPeriod title icon slots accent)).
Proof.
  simpl. rewrite <- list_fmap_compose.
  apply Forall2_fmap_r, Forall_Forall2_diag, Forall_forall.
  intros slot _ p s. unfold press, Dom.click, handle, handleSlotClick.
  simpl. destruct (bool_decide_reflect (hour slot < 12)) as [Hh|Hh].
  - exists AM. repeat split; try done; lia.
  - exists PM. repeat split; try done; lia.
Qed.

Lemma slot_period_element (title : string) (icon : PeriodIcon)
    (slots : list TimeSlot) (accent : string) :
  Dom.jsx_and (nonempty slots) (Some (SlotPeriod title icon slots accent))
  = if bool_decide (slots = []) then []
    else [SlotPeriod title icon slots accent].
Proof. unfold nonempty. by destruct slots. Qed.

End DaySlotsFacts.

(** C3. Selecting a time slot calls [onSlotSelect] with the date, the
    designation and the whole slot, where the designation is AM when the
    slot's hour is below 12 and PM otherwise: this holds for the button of
    every slot of a period section, and hours 9, 12 and 14 give AM, PM and
    PM. *)
Theorem slot_click_reports_am_before_noon
    (title : string) (icon : DaySlots.PeriodIcon)
    (slots : list CalendarApi.TimeSlot) (accent : string)
    (p : DaySlots.Props) (e d t : string) (tag : CalendarApi.Period) :
  let slot h := {| CalendarApi.event_id := e; CalendarApi.datetime := d;
                   CalendarApi.time := t; CalendarApi.hour := h;
                   CalendarApi.period := tag |} in
  Forall2 DaySlots.selects_with_designation slots
    (DaySlots.slot_button
       <$> DaySlots.period_grid (DaySlots.SlotPeriod title icon slots accent))
  ∧ DaySlots.handleSlotClick p (slot 9)
    = DaySlots.OnSlotSelect (DaySlots.date p) DaySlots.AM (slot 9)
  ∧ DaySlots.handleSlotClick p (slot 12)
    = DaySlots.OnSlotSelect (DaySlots.date p) DaySlots.PM (slot 12)
  ∧ DaySlots.handleSlotClick p (slot 14)
    = DaySlots.OnSlotSelect (DaySlots.date p) DaySlots.PM (slot 14).
Proof.
  split; [apply slot_button_selects | done].
Qed.

(** C7. For every day-slots response the renderer shows the empty-state
    message, and no period section, exactly when [total_slots] is 0; when
    it is not 0 it shows the buckets that are not empty, in the order
    morning, afternoon, evening. *)
Theorem day_slots_empty_state_iff_no_slots
    (p : DaySlots.Props) (d : CalendarApi.DaySlotsResponse) :
  let v := DaySlots.render p
             {| DaySlots.loading := false; DaySlots.slotsData := Some d;
                DaySlots.error := None |} in
  (DaySlots.shows_empty_state v = true ↔ CalendarApi.ds_total_slots d = 0)
  ∧ (CalendarApi.ds_total_slots d = 0 ∧ DaySlots.period_sections v = []
     ∨ CalendarApi.ds_total_slots d ≠ 0
       ∧ DaySlots.period_sections v
         = (λ b, DaySlots.SlotPeriod b.1.1 b.1.2 b.2
                   (CalendarApi.color (DaySlots.dayData p)))
             <$> filter (λ b, b.2 ≠ [])
                   (DaySlots.buckets (CalendarApi.grouped_by_period d))).
Proof.
  simpl. unfold DaySlots.slots_content.
  case_bool_decide as Ht; simpl.
  - split; [done|]. by left.
  - split; [split; [done | intros; contradiction]|]. right. split; [done|].
    rewrite !slot_period_element. unfold DaySlots.buckets.
    rewrite !filter_cons, filter_nil. simpl.
    repeat case_bool_decide; repeat case_decide; simpl; congruence.
Qed.

(** ** Fetch failures *)

(** C5, as stated, fails.  A heat-map instance loads a response for
    postcode 3000; the postcode changes to 3001 and that request fails: the
    response for 3000 is still in the state.  The same happens to the slots
    of a day when a later request of the day-slot picker fails. *)
Lemma failed_fetch_keeps_previous_response :
  let i := (CalendarHeatMap.run (CalendarHeatMap.mount true)
              [CalendarHeatMap.SetPostcode "3000";
               CalendarHeatMap.Settled (inr Samples.heatmap);
               CalendarHeatMap.SetPostcode "3001";
               CalendarHeatMap.Settled
                 (inl (Js.Error "Failed to fetch calendar availability"))]).1 in
  let t := (DaySlots.fetchDaySlots_settle Samples.slot_props
              (inl (Js.Error "Failed to fetch day slots"))
              (DaySlots.fetchDaySlots_begin Samples.slot_props
                 Samples.slots_loaded).1).1 in
  (CalendarHeatMap.heatMapData (CalendarHeatMap.state i) = Some Samples.heatmap
   ∧ CalendarHeatMap.heatMapData (CalendarHeatMap.state i) ≠ None)
  ∧ (DaySlots.slotsData t = Some Samples.dayslots
     ∧ DaySlots.slotsData t ≠ None).
Proof. repeat split; done. Qed.

(** C5, amended.  When a heat-map or day-slots fetch fails with anything
    but an [Error] whose message is empty, the error message and the retry
    control are shown in place of the content, and the previously stored
    response, if any, stays in the state as it was. *)
Theorem failed_fetch_shows_error_and_keeps_state
    (p : CalendarHeatMap.Props) (s : CalendarHeatMap.State)
    (q : DaySlots.Props) (t : DaySlots.State) (err : Js.thrown) :
  err ≠ Js.Error "" →
  let s' := (CalendarHeatMap.fetchHeatMap_settle p (inl err)
               (CalendarHeatMap.fetchHeatMap_begin p s).1).1 in
  let t' := (DaySlots.fetchDaySlots_settle q (inl err)
               (DaySlots.fetchDaySlots_begin q t).1).1 in
  (CalendarHeatMap.heatMapData s' = CalendarHeatMap.heatMapData s
   ∧ ∃ m, CalendarHeatMap.error s' = Some m
          ∧ CalendarHeatMap.render s'
            = CalendarHeatMap.ErrorView m CalendarHeatMap.retry_button)
  ∧ (DaySlots.slotsData t' = DaySlots.slotsData t
     ∧ ∃ m, DaySlots.error t' = Some m
            ∧ DaySlots.render q t'
              = DaySlots.ErrorView m DaySlots.retry_button).
Proof.
  intros Herr. simpl.
  split; (split; [done|]); eexists; (split; [done|]);
    unfold CalendarHeatMap.render, DaySlots.render; simpl;
    destruct err as [m|]; simpl; try done;
    assert (Hm : Js.truthy m = true) by (apply truthy_spec; congruence);
    by rewrite Hm.
Qed.

Lemma failed_fetch_shows_error_and_keeps_state_witness :
  Js.Error "Supabase client not available" ≠ Js.Error ""
  ∧ CalendarHeatMap.heatMapData
      (CalendarHeatMap.fetchHeatMap_settle Samples.heat_props
         (inl (Js.Error "Supabase client not available"))
         (CalendarHeatMap.fetchHeatMap_begin Samples.heat_props
            Samples.heat_loaded).1).1
    = Some Samples.heatmap.
Proof.
  split; [done|].
  apply (failed_fetch_shows_error_and_keeps_state Samples.heat_props
           Samples.heat_loaded Samples.slot_props Samples.slots_loaded
           (Js.Error "Supabase client not available")).
  done.
Defined.

(** ** The postcode gate of the heat map *)

(** C9, as stated, fails on both counts.  After a response for postcode
    3000 is loaded, the postcode 300 makes no request, yet the view shows
    the stored heat map and not the prompt.  And after a failed request the
    retry control sends a request for the postcode 300. *)
Lemma short_postcode_shows_stored_heat_map :
  let loaded := (CalendarHeatMap.run (CalendarHeatMap.mount false)
                   [CalendarHeatMap.SetPostcode "3000";
                    CalendarHeatMap.Settled (inr Samples.heatmap)]).1 in
  let failed := (CalendarHeatMap.run (CalendarHeatMap.mount false)
                   [CalendarHeatMap.SetPostcode "3000";
                    CalendarHeatMap.Settled (inl Js.NotAnError);
                    CalendarHeatMap.SetPostcode "300"]).1 in
  (let r := CalendarHeatMap.step loaded (CalendarHeatMap.SetPostcode "300") in
   r.2 = []
   ∧ CalendarHeatMap.render (CalendarHeatMap.state r.1)
     ≠ CalendarHeatMap.EnterPostcodePrompt
   ∧ CalendarHeatMap.rendered_sections
       (CalendarHeatMap.render (CalendarHeatMap.state r.1))
     = CalendarHeatMap.priority_sections
         (CalendarApi.priority_breakdown Samples.heatmap))
  ∧ (CalendarHeatMap.step failed CalendarHeatMap.ClickRetry).2
    = [CalendarHeatMap.GetCalendarHeatMap "300" 14].
Proof. repeat split; done. Qed.

(** C9, amended.  The effect that runs when the component is mounted and
    when its postcode changes issues a fetch exactly when the postcode has
    length 4 (it is then not empty); for every other postcode the effect
    makes no backend request and leaves the state as it is, so that the
    enter-a-postcode prompt is shown by a component that holds no
    response, no error and no pending request, as a fresh one does. *)
Theorem postcode_effect_fetches_iff_four_long
    (p : CalendarHeatMap.Props) (s : CalendarHeatMap.State) :
  (String.length (CalendarHeatMap.postcode p) = 4%nat
   ∧ CalendarHeatMap.postcode p ≠ ""
   ∧ (CalendarHeatMap.postcode_effect p s).2
     = [CalendarHeatMap.GetCalendarHeatMap (CalendarHeatMap.postcode p) 14])
  ∨ (String.length (CalendarHeatMap.postcode p) ≠ 4%nat
     ∧ CalendarHeatMap.postcode_effect p s = (s, [])
     ∧ CalendarHeatMap.render
         (CalendarHeatMap.postcode_effect p CalendarHeatMap.initial).1
       = CalendarHeatMap.EnterPostcodePrompt
     ∧ (CalendarHeatMap.render s = CalendarHeatMap.EnterPostcodePrompt
        ↔ CalendarHeatMap.loading s = false
          ∧ Js.truthy_opt (CalendarHeatMap.error s) = false
          ∧ CalendarHeatMap.heatMapData s = None)).
Proof.
  unfold CalendarHeatMap.postcode_effect.
  destruct (decide (String.length (CalendarHeatMap.postcode p) = 4%nat))
    as [H4|H4].
  - left. assert (Hne : CalendarHeatMap.postcode p ≠ "").
    { intros E. rewrite E in H4. discriminate. }
    rewrite (proj2 (truthy_spec _) Hne), bool_decide_eq_true_2 by done.
    done.
  - right. rewrite (bool_decide_eq_false_2 _ H4), andb_false_r.
    split; [done|]. split; [done|]. split; [done|].
    unfold CalendarHeatMap.render.
    destruct (CalendarHeatMap.loading s);
      [split; [done | by intros (? & ? & ?)]|].
    destruct (Js.truthy_opt _);
      [split; [done | by intros (? & ? & ?)]|].
    destruct (CalendarHeatMap.heatMapData s);
      split; try done; by intros (? & ? & ?).
Qed.

(** ** components/ServiceAreaMap.tsx *)

Section ServiceAreaFacts.
Import ServiceAreaMap.
Context {number TurfPoint TurfPolygon : Type}.
Variable point : number * number → TurfPoint.
Variable turfPolygon : list (list (list number)) → TurfPolygon.
Variable booleanPointInPolygon : TurfPoint → TurfPolygon → bool.

(** The loop finds the first service-area polygon that contains the
    point, and keeps its name or the fallback. *)
Lemma foundArea_first_containing (testPoint : TurfPoint)
    (fs : list (GeoJSONFeature number)) :
  foundArea turfPolygon booleanPointInPolygon testPoint fs
  = (λ f, Js.or_else (properties f ≫= name) "Unknown Area")
      <$> first_containing turfPolygon booleanPointInPolygon testPoint fs.
Proof.
  unfold first_containing, service_area_polygons.
  induction fs as [|f fs IH]; [done|].
  rewrite filter_cons. unfold is_service_polygon, contains at 1. simpl.
  destruct (geometry f) as [c|c] eqn:Hg.
  - rewrite decide_False by done. apply IH.
  - destruct (is_service_area f) eqn:Hs.
    + rewrite decide_True by done. rewrite filter_cons.
      unfold contains at 1. rewrite Hg.
      destruct (booleanPointInPolygon testPoint (turfPolygon c)).
      * by rewrite decide_True.
      * rewrite decide_False by done. apply IH.
    + rewrite decide_False by done. apply IH.
Qed.

Lemma reports_of_effect (marker_current : bool) (lng lat : number)
    (collection : GeoJSONCollection number) :
  let found := foundArea turfPolygon booleanPointInPolygon
                 (point (lng, lat)) (features collection) in
  reports (coordinates_effect point turfPolygon booleanPointInPolygon
             true marker_current (Some (lng, lat)) (Some collection) true)
  = [(bool_decide (found ≠ None), found)].
Proof. by destruct marker_current. Qed.

End ServiceAreaFacts.

(** C4, as stated, fails.  The dataset holds a point feature and one
    service-area polygon, a square without a [name]; the point (5, 5) lies
    in the square.  The callback is called once, with [true] and the text
    "Unknown Area", not with the name of the polygon, which it does not
    have. *)
Lemma nameless_area_is_reported_as_unknown :
  let calls := ServiceAreaMap.IntGeometry.effect true false (Some (5, 5))
                 (Some (Samples.dataset None)) true in
  ServiceAreaMap.first_containing ServiceAreaMap.IntGeometry.polygon
    ServiceAreaMap.IntGeometry.booleanPointInPolygon
    (ServiceAreaMap.IntGeometry.point (5, 5))
    (ServiceAreaMap.features (Samples.dataset None))
  = Some (Samples.area None)
  ∧ ServiceAreaMap.reports calls = [(true, Some "Unknown Area")]
  ∧ ServiceAreaMap.reports calls
    ≠ [(true, ServiceAreaMap.properties (Samples.area None)
                ≫= ServiceAreaMap.name)].
Proof. repeat split; done. Qed.

(** C4, amended.  With the map created, a coordinate pair, a loaded
    dataset and a reporting callback, the check goes through the features
    whose geometry is a polygon and whose [type] property is
    [service_area], in the order of the dataset, and calls the callback
    exactly once: with [true] and the name of the first such polygon that
    contains the point, or "Unknown Area" when that polygon has no name or
    an empty one; with [false] and [null] when no such polygon contains the
    point. *)
Theorem service_area_check_reports_first_match
    (number TurfPoint TurfPolygon : Type)
    (point : number * number → TurfPoint)
    (turfPolygon : list (list (list number)) → TurfPolygon)
    (booleanPointInPolygon : TurfPoint → TurfPolygon → bool)
    (marker_current : bool) (lng lat : number)
    (collection : ServiceAreaMap.GeoJSONCollection number) :
  ServiceAreaMap.reports
    (ServiceAreaMap.coordinates_effect point turfPolygon booleanPointInPolygon
       true marker_current (Some (lng, lat)) (Some collection) true)
  = [match ServiceAreaMap.first_containing turfPolygon booleanPointInPolygon
             (point (lng, lat)) (ServiceAreaMap.features collection) with
     | Some f =>
         (true,
          Some match ServiceAreaMap.properties f ≫= ServiceAreaMap.name with
               | Some n => if decide (n = "") then "Unknown Area" else n
               | None => "Unknown Area"
               end)
     | None => (false, None)
     end].
Proof.
  rewrite reports_of_effect, foundArea_first_containing.
  destruct (ServiceAreaMap.first_containing _ _ _ _) as [f|]; [|done].
  simpl. do 3 f_equal. unfold Js.or_else, Js.truthy.
  destruct (ServiceAreaMap.properties f ≫= ServiceAreaMap.name); [|done].
  by case_decide.
Qed.

(** ** components/LeadInfoAccordion.tsx *)

Section AccordionFacts.
Import LeadInfoAccordion.

Lemma initial_section_keys : initial = section_keys.
Proof. reflexivity. Qed.

Lemma object_keys_section_keys (d : LeadData) :
  list_to_set (Object_keys (sections d)) = section_keys.
Proof. reflexivity. Qed.

Lemma size_section_keys : size section_keys = length sectionOrder.
Proof. by vm_compute. Qed.

Lemma key_name_in_section_keys (k : SectionKey) :
  key_name k ∈ section_keys.
Proof.
  apply elem_of_list_to_set, list_elem_of_fmap_2.
  unfold sectionOrder. destruct k; set_solver.
Qed.

Lemma toggleSection_subseteq (k : SectionKey) (s : gset string) :
  s ⊆ section_keys → toggleSection (key_name k) s ⊆ section_keys.
Proof.
  intros Hs. pose proof (key_name_in_section_keys k) as Hk.
  unfold toggleSection. revert Hs Hk. generalize section_keys as keys.
  intros keys Hs Hk. case_bool_decide.
  - by apply subseteq_difference_l.
  - apply union_least; [done|]. by apply singleton_subseteq_l.
Qed.

Lemma expandAll_subseteq (d : option LeadData) (s : gset string) :
  s ⊆ section_keys → expandAll d s ⊆ section_keys.
Proof.
  intros Hs. destruct d as [d|]; unfold expandAll; [|done].
  by rewrite object_keys_section_keys.
Qed.

Lemma allExpanded_iff (s : gset string) :
  s ⊆ section_keys → allExpanded s = true ↔ s = section_keys.
Proof.
  intros Hs. unfold allExpanded. rewrite bool_decide_eq_true. split.
  - intros Hsize. apply set_subseteq_size_eq; [done|].
    rewrite size_section_keys. lia.
  - intros ->. apply size_section_keys.
Qed.

Lemma allCollapsed_iff (s : gset string) :
  allCollapsed s = true ↔ s = ∅.
Proof.
  unfold allCollapsed. rewrite bool_decide_eq_true.
  rewrite size_empty_iff. by unfold_leibniz.
Qed.

(** The buttons of a rendered panel send the three operations only, and
    a toggle only for a key of the section order. *)
Lemma panel_button_action (p : Props) (s : gset string)
    (b : Dom.Button Action) :
  b ∈ buttons (render p s) →
  Dom.onClick b = ExpandAll ∨ Dom.onClick b = CollapseAll
  ∨ ∃ k, Dom.onClick b = ToggleSection (key_name k).
Proof.
  unfold render. destruct (isLoading p); [by intros ?%elem_of_nil|].
  destruct (Js.truthy_opt (error p)); [by intros ?%elem_of_nil|].
  destruct (leadData p) as [d|]; [|by intros ?%elem_of_nil].
  unfold buttons. rewrite !elem_of_cons, <- list_fmap_compose.
  intros [->|[->|Hb]]; [by left | by right; left |].
  apply list_elem_of_fmap in Hb as (k & -> & _). right. right. by exists k.
Qed.

Lemma press_subseteq (p : Props) (s : gset string) (b : Dom.Button Action) :
  b ∈ buttons (render p s) → s ⊆ section_keys →
  press p b s ⊆ section_keys.
Proof.
  intros Hb Hs. apply panel_button_action in Hb.
  unfold press, Dom.click. destruct (Dom.disabled b); [done|].
  destruct Hb as [->|[->|[k ->]]]; simpl.
  - by apply expandAll_subseteq.
  - apply empty_subseteq.
  - by apply toggleSection_subseteq.
Qed.

Lemma reachable_subseteq (s : gset string) :
  reachable s → s ⊆ section_keys.
Proof.
  induction 1 as [|p b s _ IH Hb].
  - by rewrite initial_section_keys.
  - by apply press_subseteq.
Qed.

End AccordionFacts.

(** C8.  In a rendered panel, in every state the panel can reach, a click
    on Expand All leaves the expanded-state equal to the set of all section
    keys of the lead record and a click on Collapse All leaves it empty;
    Expand All is disabled exactly when every section key is already in the
    set, Collapse All exactly when the set is already empty, so that a
    disabled control would change nothing. *)
Theorem expand_all_collapse_all_controls
    (d : LeadInfoAccordion.LeadData) (s : gset string) :
  LeadInfoAccordion.reachable s →
  let p := {| LeadInfoAccordion.leadData := Some d;
              LeadInfoAccordion.isLoading := false;
              LeadInfoAccordion.error := None |} in
  let all_keys : gset string :=
    list_to_set (LeadInfoAccordion.Object_keys (LeadInfoAccordion.sections d)) in
  ∃ expand_all collapse_all accordion,
    LeadInfoAccordion.render p s
    = LeadInfoAccordion.Panel (LeadInfoAccordion.id d)
        expand_all collapse_all accordion
    ∧ LeadInfoAccordion.press p expand_all s = all_keys
    ∧ LeadInfoAccordion.press p collapse_all s = ∅
    ∧ (Dom.disabled expand_all = true ↔ s = all_keys)
    ∧ (Dom.disabled collapse_all = true ↔ s = ∅).
Proof.
  intros Hs%reachable_subseteq p all_keys.
  pose proof (allExpanded_iff s Hs) as He.
  pose proof (allCollapsed_iff s) as Hc.
  do 3 eexists. split; [reflexivity|].
  unfold LeadInfoAccordion.press, Dom.click. simpl.
  unfold all_keys. rewrite object_keys_section_keys.
  repeat split; try tauto.
  - destruct (LeadInfoAccordion.allExpanded s); [by apply He | done].
  - destruct (LeadInfoAccordion.allCollapsed s); [by apply Hc | done].
Qed.

Lemma expand_all_collapse_all_controls_witness :
  LeadInfoAccordion.reachable LeadInfoAccordion.initial
  ∧ ∃ expand_all collapse_all accordion,
      LeadInfoAccordion.render Samples.lead_props LeadInfoAccordion.initial
      = LeadInfoAccordion.Panel "c-1" expand_all collapse_all accordion
      ∧ LeadInfoAccordion.press Samples.lead_props expand_all
          LeadInfoAccordion.initial
        = list_to_set (LeadInfoAccordion.Object_keys
                         (LeadInfoAccordion.sections Samples.lead))
      ∧ LeadInfoAccordion.press Samples.lead_props collapse_all
          LeadInfoAccordion.initial = ∅
      ∧ (Dom.disabled expand_all = true
         ↔ LeadInfoAccordion.initial
           = list_to_set (LeadInfoAccordion.Object_keys
                            (LeadInfoAccordion.sections Samples.lead)))
      ∧ (Dom.disabled collapse_all = true ↔ LeadInfoAccordion.initial = ∅).
Proof.
  split; [constructor|].
  apply (expand_all_collapse_all_controls Samples.lead
           LeadInfoAccordion.initial).
  constructor.
Defined.

(** C10.  The initial expanded-state is the set of the eight section keys,
    and toggling a section of the section order, Expand All and Collapse
    All each keep the expanded-state a subset of those keys, so that every
    state the panel reaches is one; for such a state the check [size = 8]
    holds exactly when all sections are expanded and the check [size = 0]
    exactly when none is. *)
Theorem expanded_state_stays_within_section_keys (s : gset string) :
  s ⊆ LeadInfoAccordion.section_keys →
  (LeadInfoAccordion.initial = LeadInfoAccordion.section_keys
   ∧ size LeadInfoAccordion.section_keys = 8%nat
   ∧ ∀ t, LeadInfoAccordion.reachable t → t ⊆ LeadInfoAccordion.section_keys)
  ∧ (∀ k, k ∈ LeadInfoAccordion.sectionOrder →
          LeadInfoAccordion.toggleSection (LeadInfoAccordion.key_name k) s
          ⊆ LeadInfoAccordion.section_keys)
  ∧ (∀ d, LeadInfoAccordion.expandAll d s ⊆ LeadInfoAccordion.section_keys)
  ∧ LeadInfoAccordion.collapseAll s ⊆ LeadInfoAccordion.section_keys
  ∧ (size s = 8%nat ↔ s = LeadInfoAccordion.section_keys)
  ∧ (size s = 0%nat ↔ s = ∅).
Proof.
  intros Hs.
  split; [split; [apply initial_section_keys|];
          split; [apply size_section_keys | apply reachable_subseteq]|].
  split; [intros k _; by apply toggleSection_subseteq|].
  split; [intros d; by apply expandAll_subseteq|].
  split; [apply empty_subseteq|].
  split.
  - rewrite <- (allExpanded_iff s Hs). unfold LeadInfoAccordion.allExpanded.
    by rewrite bool_decide_eq_true.
  - rewrite <- (allCollapsed_iff s). unfold LeadInfoAccordion.allCollapsed.
    by rewrite bool_decide_eq_true.
Qed.

Lemma expanded_state_stays_within_section_keys_witness :
  LeadInfoAccordion.initial ⊆ LeadInfoAccordion.section_keys
  ∧ (size LeadInfoAccordion.initial = 8%nat
     ↔ LeadInfoAccordion.initial = LeadInfoAccordion.section_keys).
Proof.
  split; [done|].
  apply (expanded_state_stays_within_section_keys LeadInfoAccordion.initial).
  done.
Defined.

(** * Further properties of the components *)

(** ** Polygon colours and layers *)

Section ColourFacts.
Import ServiceAreaLayers.




(** X2. A style that starts with [#poly-] and six hexadecimal digits, as
    in [#poly-9C27B0-1200-179], gives those six digits after a [#],
    whatever follows. *)
Theorem getPolygonColor_poly_prefix (h rest : string) :
  String.length h = 6%nat →
  forallb is_hex (String.list_ascii_of_string h) = true →
  getPolygonColor (Some ("#poly-" +:+ h +:+ rest)) = "#" +:+ h.
Proof.
  intros Hl Hh.
  destruct h as [|a [|b [|c [|d [|e [|f [|? ?]]]]]]]; try done.
  unfold getPolygonColor. simpl in *.
  unfold match_here. simpl. by rewrite Hh.
Qed.
End ColourFacts.

Section LayerFacts.
Import ServiceAreaMap ServiceAreaLayers.
Context {number : Type}.
Implicit Types (g : list (string * list (GeoJSONFeature number)))
  (p : GeoJSONFeature number) (l : list (GeoJSONFeature number)).

Lemma push_polygon_keys (c : string) p g :
  (push_polygon c p g).*1
  = if bool_decide (c ∈ g.*1) then g.*1 else g.*1 ++ [c].
Proof.
  induction g as [|[c' l'] g IH]; [done|]. cbn [push_polygon].
  destruct (decide (c' = c)) as [->|Hne].
  - rewrite (bool_decide_eq_true_2 (c = c)) by done. rewrite !fmap_cons.
    rewrite bool_decide_eq_true_2; [done | by left].
  - rewrite (bool_decide_eq_false_2 (c' = c)) by done. rewrite !fmap_cons, IH.
    cbn [fst].
    destruct (decide (c ∈ g.*1)) as [Hin|Hin].
    + rewrite (bool_decide_eq_true_2 _ Hin).
      rewrite bool_decide_eq_true_2; [done | by right].
    + rewrite (bool_decide_eq_false_2 _ Hin).
      rewrite bool_decide_eq_false_2; [done|].
      intros [?|?]%elem_of_cons; congruence.
Qed.

Lemma push_polygon_elem_of (c c' : string) p l' g :
  NoDup g.*1 →
  (c', l') ∈ push_polygon c p g
  ↔ (c' ≠ c ∧ (c', l') ∈ g)
    ∨ (c' = c ∧ ((∃ l, (c, l) ∈ g ∧ l' = l ++ [p])
                 ∨ ((c ∉ g.*1) ∧ l' = [p]))).
Proof.
  induction g as [|[c0 l0] g IH]; simpl.
  - intros _. rewrite list_elem_of_singleton. split.
    + intros [= -> ->]. right. split; [done|]. right. split; [|done].
      apply not_elem_of_nil.
    + intros [[_ []%elem_of_nil]|[-> [(l & []%elem_of_nil & _)|[_ ->]]]]. done.
  - intros [Hc0 Hnd]%NoDup_cons. specialize (IH Hnd).
    case_bool_decide as Hc; subst.
    + rewrite !elem_of_cons. split.
      * intros [[= -> ->]|Hin].
        -- right. split; [done|]. left. exists l0. split; [by left | done].
        -- left. split; [|by right]. intros ->. apply Hc0.
           apply list_elem_of_fmap. by exists (c, l').
      * intros [[Hne [[= ? ?]|Hin]]|[-> [(l & Hl & ->)|[Hnot _]]]].
        -- congruence.
        -- by right.
        -- apply elem_of_cons in Hl as [[= ->]|Hl]; [by left|].
           exfalso. apply Hc0. apply list_elem_of_fmap. by exists (c, l).
        -- exfalso. apply Hnot. by left.
    + rewrite !elem_of_cons, IH. split.
      * intros [[= -> ->]|[[Hne Hin]|[-> [(l & Hl & ->)|[Hnot ->]]]]].
        -- left. split; [done | by left].
        -- left. split; [done | by right].
        -- right. split; [done|]. left. exists l. split; [by right | done].
        -- right. split; [done|]. right. split; [|done].
           intros [?|?]; [congruence | by apply Hnot].
      * intros [[Hne [[= -> ->]|Hin]]|[-> [(l & Hl & ->)|[Hnot ->]]]].
        -- by left.
        -- right. left. done.
        -- apply elem_of_cons in Hl as [[= ? ?]|Hl]; [congruence|].
           right. right. split; [done|]. left. by exists l.
        -- right. right. split; [done|]. right. split; [|done].
           intros Hin. apply Hnot. by right.
Qed.

Lemma grouped_push g l p :
  grouped g l → grouped (push_polygon (polygon_color p) p g) (l ++ [p]).
Proof.
  intros [Hnd Hg]. split.
  - rewrite push_polygon_keys. case_bool_decide as Hin; [done|].
    apply NoDup_app. split; [done|]. split; [|apply NoDup_singleton].
    intros c Hc ->%list_elem_of_singleton. done.
  - intros c lc. rewrite push_polygon_elem_of by done.
    rewrite filter_app, filter_cons, filter_nil.
    set (cp := polygon_color p). split.
    + intros [[Hne Hin]|[-> [(l0 & Hl0 & ->)|[Hnot ->]]]].
      * apply Hg in Hin as [? ->]. rewrite decide_False by congruence.
        by rewrite app_nil_r.
      * apply Hg in Hl0 as [? ->]. rewrite decide_True by done.
        split; [|done]. by intros [? _]%app_eq_nil.
      * rewrite decide_True by done. split; [done|].
        destruct (filter (λ p0, polygon_color p0 = cp) l) as [|x lf] eqn:Hf;
          [done|].
        exfalso. apply Hnot. apply list_elem_of_fmap. exists (cp, x :: lf).
        split; [done|]. apply Hg. by rewrite Hf.
    + intros [Hne ->]. destruct (decide (c = cp)) as [->|Hc].
      * right. split; [done|]. rewrite decide_True by done.
        destruct (filter (λ p0, polygon_color p0 = cp) l) as [|x lf] eqn:Hf.
        -- right. split; [|done]. intros (y & Hy1 & Hy2)%list_elem_of_fmap.
           destruct y as [c1 l1]. simpl in Hy1. subst c1.
           apply Hg in Hy2 as [? ?]. congruence.
        -- left. exists (x :: lf). split; [|done]. apply Hg. by rewrite Hf.
      * left. split; [done|]. rewrite decide_False in * by congruence.
        rewrite app_nil_r in *. by apply Hg.
Qed.

Lemma grouped_foldl g l rest :
  grouped g l →
  grouped (foldl (λ groups polygon,
                    push_polygon (polygon_color polygon) polygon groups)
                 g rest) (l ++ rest).
Proof.
  revert g l. induction rest as [|p rest IH]; intros g l Hg; simpl.
  - by rewrite app_nil_r.
  - replace (l ++ p :: rest) with ((l ++ [p]) ++ rest)
      by (by rewrite <- app_assoc).
    apply IH. by apply grouped_push.
Qed.

(** X3. The colour groups partition the polygons by colour: no colour
    has two entries, and the entry of a colour holds exactly the polygons
    of that colour, in their order; a colour without polygon has no
    entry. *)
Theorem colorGroups_partition_by_colour l :
  NoDup (colorGroups l).*1
  ∧ ∀ c lc, (c, lc) ∈ colorGroups l
            ↔ lc ≠ [] ∧ lc = filter (λ p, polygon_color p = c) l.
Proof.
  apply (grouped_foldl [] [] l). split; [constructor|].
  intros c lc. split; [by intros ?%elem_of_nil | by intros [? ->]].
Qed.

End LayerFacts.

Section SourceFacts.
Import ServiceAreaMap ServiceAreaLayers.
Context {number : Type}.
Implicit Types (entries : list (string * list (GeoJSONFeature number)))
  (sources : gset string).

Lemma sourceId_inj (i j : nat) : sourceId i = sourceId j → i = j.
Proof.
  unfold sourceId. simpl. intros [= H]. by apply (inj pretty).
Qed.

Lemma add_groups_fresh (index : nat) entries sources :
  (∀ j, (index ≤ j)%nat → sourceId j ∉ sources) →
  (add_groups index entries sources).2
  = concat (imap (λ i, group_calls (index + i)) entries).
Proof.
  revert index sources.
  induction entries as [|entry entries IH]; intros index sources Hf; [done|].
  cbn [add_groups]. unfold add_group.
  rewrite bool_decide_eq_false_2 by (by apply Hf).
  specialize (IH (S index) (sources ∪ {[sourceId index]})).
  destruct (add_groups (S index) entries _) as [s2 c2]. simpl in *.
  rewrite Nat.add_0_r. do 3 f_equal. rewrite IH.
  - f_equal. apply imap_ext. intros i x _. simpl. f_equal. lia.
  - intros j Hj [Hin|Heq%elem_of_singleton]%elem_of_union.
    + apply (Hf j); [lia | done].
    + apply sourceId_inj in Heq. lia.
Qed.

Lemma add_groups_present (index : nat) entries sources :
  (∀ i, (i < length entries)%nat → sourceId (index + i) ∈ sources) →
  add_groups index entries sources = (sources, []).
Proof.
  revert index.
  induction entries as [|entry entries IH]; intros index Hp; [done|].
  cbn [add_groups]. unfold add_group.
  rewrite bool_decide_eq_true_2.
  - rewrite IH; [done|]. intros i Hi.
    replace (S index + i)%nat with (index + S i)%nat by lia.
    apply Hp. simpl. lia.
  - replace index with (index + 0)%nat by lia. apply Hp. simpl. lia.
Qed.

Lemma add_groups_sources (index : nat) entries sources :
  sources ⊆ (add_groups index entries sources).1
  ∧ ∀ i, (i < length entries)%nat →
         sourceId (index + i) ∈ (add_groups index entries sources).1.
Proof.
  revert index sources.
  induction entries as [|entry entries IH]; intros index sources.
  - split; [done|]. simpl. lia.
  - cbn [add_groups].
    destruct (add_group index entry sources) as [s1 c1] eqn:H1.
    specialize (IH (S index) s1).
    destruct (add_groups (S index) entries s1) as [s2 c2]. simpl in *.
    destruct IH as [Hsub Hin].
    assert (Hs1 : sources ⊆ s1 ∧ sourceId index ∈ s1).
    { unfold add_group in H1. case_bool_decide; simplify_eq; set_solver. }
    destruct Hs1 as [Hsub1 Hin1]. split; [set_solver|].
    intros [|i] Hi.
    + rewrite Nat.add_0_r. set_solver.
    + replace (index + S i)%nat with (S index + i)%nat by lia.
      apply Hin. lia.
Qed.

(** X4. On a loaded map that has none of the [service-areas-<i>] sources,
    the effect adds, for the colour groups in their order, one source with
    the polygons of the group, then a fill layer and a line layer on that
    source in the colour of the group. *)
Theorem layers_effect_fresh_map (collection : GeoJSONCollection number)
    sources :
  (∀ j, sourceId j ∉ sources) →
  (layers_effect true true (Some collection) sources).2
  = concat (imap group_calls
              (colorGroups (service_area_polygons (features collection)))).
Proof.
  intros Hf. unfold layers_effect. simpl.
  rewrite add_groups_fresh by (intros j _; apply Hf). done.
Qed.

(** X5. Running the layer effect again on the map it has left adds
    nothing: every source it would create is there already. *)
Theorem layers_effect_idempotent (map_current mapLoaded : bool)
    (geoJsonData : option (GeoJSONCollection number)) sources :
  let first := layers_effect map_current mapLoaded geoJsonData sources in
  layers_effect map_current mapLoaded geoJsonData first.1 = (first.1, []).
Proof.
  unfold layers_effect.
  destruct (negb map_current || negb mapLoaded); [done|].
  destruct geoJsonData as [collection|]; [|done]. simpl.
  apply add_groups_present. intros i Hi. apply add_groups_sources. done.
Qed.

End SourceFacts.

(** ** The service-area check *)

Section CheckFacts.
Import ServiceAreaMap.
Context {number TurfPoint TurfPolygon : Type}.
Variable point : number * number → TurfPoint.
Variable turfPolygon : list (list (list number)) → TurfPolygon.
Variable booleanPointInPolygon : TurfPoint → TurfPolygon → bool.

Lemma reports_cases (map_current marker_current : bool)
    (coordinates : option (number * number))
    (geoJsonData : option (GeoJSONCollection number))
    (has_onServiceAreaCheck : bool) :
  reports (coordinates_effect point turfPolygon booleanPointInPolygon
             map_current marker_current coordinates geoJsonData
             has_onServiceAreaCheck)
  = match coordinates, geoJsonData with
    | Some c, Some collection =>
        if map_current && has_onServiceAreaCheck then
          let found := foundArea turfPolygon booleanPointInPolygon (point c)
                         (features collection) in
          [(bool_decide (found ≠ None), found)]
        else []
    | _, _ => []
    end.
Proof.
  unfold coordinates_effect.
  destruct map_current, coordinates as [[lng lat]|], geoJsonData as [c|],
    has_onServiceAreaCheck, marker_current; done.
Qed.

Lemma foundArea_nonempty (testPoint : TurfPoint)
    (fs : list (GeoJSONFeature number)) :
  foundArea turfPolygon booleanPointInPolygon testPoint fs ≠ Some "".
Proof.
  rewrite foundArea_first_containing.
  destruct (first_containing _ _ _ _) as [f|]; [|done]. simpl.
  intros [= H]. by apply or_else_nonempty in H.
Qed.

(** X6. The coordinates effect calls [onServiceAreaCheck] at most once,
    and once exactly when the map exists, coordinates are given, the
    dataset is loaded and the callback is supplied.  In a call the flag is
    true exactly when the area name is not null, and the name is never the
    empty string. *)
Theorem service_area_callback_called_iff_all_present
    (map_current marker_current : bool)
    (coordinates : option (number * number))
    (geoJsonData : option (GeoJSONCollection number))
    (has_onServiceAreaCheck : bool) :
  let r := reports (coordinates_effect point turfPolygon
                      booleanPointInPolygon map_current marker_current
                      coordinates geoJsonData has_onServiceAreaCheck) in
  (length r ≤ 1)%nat
  ∧ (length r = 1%nat
     ↔ map_current = true ∧ is_Some coordinates ∧ is_Some geoJsonData
       ∧ has_onServiceAreaCheck = true)
  ∧ Forall (λ '(inServiceArea, areaName),
              (inServiceArea = true ↔ is_Some areaName)
              ∧ areaName ≠ Some "") r.
Proof.
  simpl. rewrite reports_cases.
  destruct coordinates as [c|], geoJsonData as [d|], map_current,
    has_onServiceAreaCheck; simpl; (split; [lia|]); split;
    try (split; [done | by intros (? & [? ?] & [? ?] & ?)]);
    try (by constructor).
  constructor; [|constructor]. split; [|apply foundArea_nonempty].
  rewrite bool_decide_eq_true.
  destruct (foundArea _ _ _ _); split; try done; eauto.
Qed.

Lemma service_area_polygons_idemp (fs : list (GeoJSONFeature number)) :
  service_area_polygons (service_area_polygons fs) = service_area_polygons fs.
Proof.
  unfold service_area_polygons.
  induction fs as [|f fs IH]; [done|].
  rewrite filter_cons. case_decide as Hf; [|done].
  rewrite filter_cons, decide_True by done. by rewrite IH.
Qed.

(** X7. Features that are not service-area polygons have no influence on
    the check: it gives the same result on the dataset and on its
    service-area polygons alone. *)
Theorem foundArea_ignores_other_features (testPoint : TurfPoint)
    (fs : list (GeoJSONFeature number)) :
  foundArea turfPolygon booleanPointInPolygon testPoint fs
  = foundArea turfPolygon booleanPointInPolygon testPoint
      (service_area_polygons fs).
Proof.
  rewrite !foundArea_first_containing. unfold first_containing.
  by rewrite service_area_polygons_idemp.
Qed.

End CheckFacts.

(** ** Whole fetches and runs *)

Section FetchFacts.
Import CalendarApi.
Variable parseInt : string → Js.number.

(** X8. A whole [fetchHeatMap] sends one request for the postcode and 14
    days and ends with [loading] false.  If the client is missing or the
    remote call returns an error, the error view shows a non-empty message,
    the stored response is what it was, and [onError], when supplied, gets
    that message.  Otherwise the remote payload is stored, the error is
    cleared, its sections are shown and nothing else is called. *)
Theorem fetchHeatMap_ends_in_error_or_heat_map
    (getSupabase : option (@SupabaseClient HeatMapResponse))
    (p : CalendarHeatMap.Props) (s : CalendarHeatMap.State) :
  let remote :=
    λ c, heatmap_response parseInt c (CalendarHeatMap.postcode p) (Some 14) in
  let r := Fetch.fetchHeatMap parseInt getSupabase p s in
  let request :=
    CalendarHeatMap.GetCalendarHeatMap (CalendarHeatMap.postcode p) 14 in
  (call_fails getSupabase remote
   ∧ ∃ m, m ≠ ""
          ∧ r.1 = {| CalendarHeatMap.loading := false;
                     CalendarHeatMap.heatMapData :=
                       CalendarHeatMap.heatMapData s;
                     CalendarHeatMap.error := Some m |}
          ∧ CalendarHeatMap.render r.1
            = CalendarHeatMap.ErrorView m CalendarHeatMap.retry_button
          ∧ r.2 = request :: (if CalendarHeatMap.has_onError p
                              then [CalendarHeatMap.OnError m] else []))
  ∨ (¬ call_fails getSupabase remote
     ∧ ∃ c, getSupabase = Some c
            ∧ r.1 = {| CalendarHeatMap.loading := false;
                       CalendarHeatMap.heatMapData := Some (data (remote c));
                       CalendarHeatMap.error := None |}
            ∧ CalendarHeatMap.rendered_sections (CalendarHeatMap.render r.1)
              = CalendarHeatMap.priority_sections
                  (priority_breakdown (data (remote c)))
            ∧ r.2 = [request]).
Proof.
  intros remote r request.
  destruct (outcome_cases getSupabase remote
              "Failed to fetch calendar availability"
              (getCalendarHeatMap parseInt getSupabase
                 (CalendarHeatMap.postcode p) (Some 14)))
    as [_ H]; [done | done |].
  subst r. unfold Fetch.fetchHeatMap. simpl.
  destruct H as [[Hf (m & -> & Hm)]|[Hf (c & Hc & ->)]].
  - left. split; [done|]. exists m. simpl. repeat split; try done.
    unfold CalendarHeatMap.render. simpl.
    by rewrite (proj2 (truthy_spec m) Hm).
  - right. split; [done|]. exists c. done.
Qed.

(** X9. A whole [fetchDaySlots] sends one request for the postcode and the
    date and ends with [loading] false: on failure in the error view with a
    non-empty message, passed to [onError] when supplied, the stored slots
    unchanged; on success with the remote payload stored, the error
    cleared, and a view that is neither the spinner nor empty. *)
Theorem fetchDaySlots_ends_in_error_or_slots
    (getSupabase : option (@SupabaseClient DaySlotsResponse))
    (p : DaySlots.Props) (s : DaySlots.State) :
  let remote :=
    λ c, dayslots_response parseInt c (DaySlots.postcode p) (DaySlots.date p) in
  let r := Fetch.fetchDaySlots parseInt getSupabase p s in
  let request := DaySlots.GetDaySlots (DaySlots.postcode p) (DaySlots.date p) in
  (call_fails getSupabase remote
   ∧ ∃ m, m ≠ ""
          ∧ r.1 = {| DaySlots.loading := false;
                     DaySlots.slotsData := DaySlots.slotsData s;
                     DaySlots.error := Some m |}
          ∧ DaySlots.render p r.1
            = DaySlots.ErrorView m DaySlots.retry_button
          ∧ r.2 = request :: (if DaySlots.has_onError p
                              then [DaySlots.OnError m] else []))
  ∨ (¬ call_fails getSupabase remote
     ∧ ∃ c, getSupabase = Some c
            ∧ r.1 = {| DaySlots.loading := false;
                       DaySlots.slotsData := Some (data (remote c));
                       DaySlots.error := None |}
            ∧ DaySlots.render p r.1 ≠ DaySlots.Spinner
            ∧ DaySlots.render p r.1 ≠ DaySlots.Nothing
            ∧ r.2 = [request]).
Proof.
  intros remote r request.
  destruct (outcome_cases getSupabase remote "Failed to fetch day slots"
              (getDaySlots parseInt getSupabase
                 (DaySlots.postcode p) (DaySlots.date p)))
    as [_ H]; [done | done |].
  subst r. unfold Fetch.fetchDaySlots. simpl.
  destruct H as [[Hf (m & -> & Hm)]|[Hf (c & Hc & ->)]].
  - left. split; [done|]. exists m. simpl. repeat split; try done.
    unfold DaySlots.render. simpl.
    by rewrite (proj2 (truthy_spec m) Hm).
  - right. split; [done|]. exists c. done.
Qed.
End FetchFacts.

Section HeatTraceFacts.
Import CalendarApi CalendarHeatMap.

(** X10. Two fetches overlap; the first fails, then the second succeeds.
    The response of the second is stored, yet the view is the error view
    of the first: a success does not clear the error. *)
Theorem earlier_failure_hides_later_response
    (p1 p2 : Props) (s : State) (err : Js.thrown) (data : HeatMapResponse) :
  err ≠ Js.Error "" →
  let s1 := (fetchHeatMap_begin p1 s).1 in
  let s2 := (fetchHeatMap_begin p2 s1).1 in
  let s3 := (fetchHeatMap_settle p1 (inl err) s2).1 in
  let s4 := (fetchHeatMap_settle p2 (inr data) s3).1 in
  heatMapData s4 = Some data
  ∧ ∃ m, render s4 = ErrorView m retry_button.
Proof.
  intros Herr. simpl. split; [done|]. unfold render. simpl.
  destruct err as [m|]; simpl.
  - assert (Hm : Js.truthy m = true) by (apply truthy_spec; congruence).
    rewrite Hm. by eexists.
  - by eexists.
Qed.

Lemma step_heatMapData (i : Instance) (e : Event) :
  heatMapData (state (step i e).1)
  = match Observe.delivered e with
    | Some d => Some d
    | None => heatMapData (state i)
    end.
Proof.
  destruct e as [pc|[err|d]|]; simpl.
  - case_bool_decide; [done|]. unfold postcode_effect.
    by destruct (_ && _).
  - done.
  - done.
  - destruct (render (state i)) as [|m b| |] eqn:Hr; try done.
    unfold render in Hr. destruct (loading (state i)); [done|].
    destruct (Js.truthy_opt (error (state i))); [|by destruct (heatMapData _)].
    by injection Hr as _ <-.
Qed.

Lemma run_cons (i : Instance) (e : Event) (es : list Event) :
  run i (e :: es)
  = ((run (step i e).1 es).1, (step i e).2 ++ (run (step i e).1 es).2).
Proof.
  simpl. destruct (step i e) as [i1 c1]. simpl.
  by destruct (run i1 es) as [i2 c2].
Qed.

(** X11. Along any run of a heat-map instance the stored response is the
    payload of the last request that settled with success, or the one the
    instance started with when none did: postcode changes, failures and
    retries never change or clear it. *)
Theorem stored_response_is_last_delivered (i : Instance) (es : list Event) :
  heatMapData (state (run i es).1)
  = match last (omap Observe.delivered es) with
    | Some d => Some d
    | None => heatMapData (state i)
    end.
Proof.
  revert i. induction es as [|e es IH]; intros i; [done|].
  rewrite run_cons. cbn [fst]. rewrite IH, step_heatMapData.
  change (omap Observe.delivered (e :: es))
    with (match Observe.delivered e with
          | Some d => [d] ++ omap Observe.delivered es
          | None => omap Observe.delivered es
          end).
  destruct (Observe.delivered e) as [d|]; [|done].
  rewrite last_app. by destruct (last (omap Observe.delivered es)).
Qed.

Lemma step_requests (i : Instance) (e : Event) :
  Forall (λ r, r.2 = 14 ∧ (e ≠ ClickRetry → String.length r.1 = 4%nat))
    (omap Observe.requested (step i e).2).
Proof.
  destruct e as [pc|[err|d]|]; simpl.
  - case_bool_decide; [constructor|]. unfold postcode_effect. simpl.
    destruct (Js.truthy pc); simpl; [|constructor].
    case_bool_decide; simpl; [|constructor].
    by repeat constructor.
  - destruct err; simpl; destruct (has_onError (props i)); constructor.
  - constructor.
  - destruct (render (state i)) as [|m b| |] eqn:Hr; try constructor.
    unfold render in Hr. destruct (loading (state i)); [done|].
    destruct (Js.truthy_opt (error (state i))); [|by destruct (heatMapData _)].
    injection Hr as _ <-. simpl. by repeat constructor.
Qed.

(** X12. Every backend request a heat-map instance issues asks for 14
    days, and in a run without a click on the retry control every request
    carries a postcode of length 4. *)
Theorem requests_ask_fourteen_days (i : Instance) (es : list Event) :
  Forall (λ r, r.2 = 14 ∧ (ClickRetry ∉ es → String.length r.1 = 4%nat))
    (omap Observe.requested (run i es).2).
Proof.
  revert i. induction es as [|e es IH]; intros i; [constructor|].
  rewrite run_cons. cbn [snd]. rewrite omap_app. apply Forall_app. split.
  - eapply Forall_impl; [apply step_requests|]. simpl.
    intros r [? H]. split; [done|]. intros Hn. apply H.
    intros ->. apply Hn. by left.
  - eapply Forall_impl; [apply IH|]. simpl.
    intros r [? H]. split; [done|]. intros Hn. apply H.
    intros Hin. apply Hn. by right.
Qed.

(** X13. A retry is possible from the error view only.  There it clears
    the error, shows the spinner, keeps the stored response and requests
    the current postcode, whatever its length; in every other view the
    control does not exist and nothing happens. *)
Theorem retry_only_from_error_view (i : Instance) :
  step i ClickRetry
  = if negb (loading (state i)) && Js.truthy_opt (error (state i))
    then ({| props := props i;
             state := {| loading := true;
                         heatMapData := heatMapData (state i);
                         error := None |} |},
          [GetCalendarHeatMap (postcode (props i)) 14])
    else (i, []).
Proof.
  simpl. unfold render.
  destruct (loading (state i)); [done|].
  destruct (Js.truthy_opt (error (state i))); [done|].
  by destruct (heatMapData (state i)).
Qed.

End HeatTraceFacts.


(** ** The slot grid *)

Section SlotViewFacts.
Import CalendarApi DaySlots.

Lemma period_element_actions (title : string) (icon : PeriodIcon)
    (slots : list TimeSlot) (accent : string) :
  (Dom.jsx_and (nonempty slots) (Some (SlotPeriod title icon slots accent))
     ≫= λ sec, (λ b, Dom.onClick (slot_button b)) <$> period_grid sec)
  = SlotClick <$> slots.
Proof.
  rewrite slot_period_element. case_bool_decide as Hs; [by subst|].
  simpl. rewrite app_nil_r, <- list_fmap_compose. done.
Qed.

Lemma period_element_counts (title : string) (icon : PeriodIcon)
    (slots : list TimeSlot) (accent : string) :
  Forall (λ sec, period_count sec = length (period_grid sec)
                 ∧ period_grid sec ≠ [])
    (Dom.jsx_and (nonempty slots) (Some (SlotPeriod title icon slots accent))).
Proof.
  rewrite slot_period_element. case_bool_decide as Hs; [constructor|].
  constructor; [|constructor]. simpl. rewrite length_fmap. split; [done|].
  by destruct slots.
Qed.

(** X14. When [total_slots] is not 0, the slot buttons shown are those of
    the morning, afternoon and evening slots, in that order, one per slot:
    leaving out the empty buckets loses no slot.  Every period section
    shown has at least one button and a count equal to their number. *)
Theorem every_bucket_slot_has_one_button (p : Props) (d : DaySlotsResponse) :
  ds_total_slots d ≠ 0 →
  let v := render p {| loading := false; slotsData := Some d;
                       error := None |} in
  let g := grouped_by_period d in
  Observe.slot_actions v
  = SlotClick <$> (morning g ++ afternoon g ++ evening g)
  ∧ Forall (λ sec, period_count sec = length (period_grid sec)
                   ∧ period_grid sec ≠ [])
      (period_sections v).
Proof.
  intros Ht v g. subst v. unfold Observe.slot_actions, render.
  cbn [loading error slotsData Js.truthy_opt period_sections].
  unfold slots_content. rewrite bool_decide_eq_false_2 by done.
  fold g. split.
  - rewrite !bind_app, !period_element_actions, !fmap_app. done.
  - repeat (apply Forall_app; split); apply period_element_counts.
Qed.

(** X15. A response whose [total_slots] is not 0 while its three buckets
    are empty renders the header and nothing below it: neither the
    empty-state message nor a period section. *)
Theorem nonzero_total_without_slots_renders_blank
    (p : Props) (d : DaySlotsResponse) :
  ds_total_slots d ≠ 0 →
  morning (grouped_by_period d) = [] →
  afternoon (grouped_by_period d) = [] →
  evening (grouped_by_period d) = [] →
  ∃ header,
    render p {| loading := false; slotsData := Some d; error := None |}
    = Slots header (Periods []).
Proof.
  intros Ht Hm Ha He. eexists. unfold render.
  cbn [loading error slotsData Js.truthy_opt]. unfold slots_content.
  rewrite bool_decide_eq_false_2 by done. by rewrite Hm, Ha, He.
Qed.

End SlotViewFacts.

(** ** The lead panel *)

Section PanelFacts.
Import LeadInfoAccordion.

(** X16. [toggleSection] changes the membership of its key and of no other
    key, and toggling the same key twice gives the set back. *)
Theorem toggleSection_flips_one_key (k k' : string) (s : gset string) :
  toggleSection k (toggleSection k s) = s
  ∧ (k ∈ toggleSection k s ↔ k ∉ s)
  ∧ (k' ≠ k → k' ∈ toggleSection k s ↔ k' ∈ s).
Proof.
  assert (Hflip : ∀ x, x ∈ toggleSection k s
                       ↔ (x = k ∧ k ∉ s) ∨ (x ≠ k ∧ x ∈ s)).
  { intros x. unfold toggleSection.
    destruct (decide (k ∈ s)) as [Hin|Hin].
    - rewrite (bool_decide_eq_true_2 _ Hin).
      rewrite elem_of_difference, elem_of_singleton. intuition congruence.
    - rewrite (bool_decide_eq_false_2 _ Hin).
      rewrite elem_of_union, elem_of_singleton.
      destruct (decide (x = k)); intuition congruence. }
  split; [|split].
  - apply set_eq. intros x. unfold toggleSection at 1.
    destruct (decide (k ∈ toggleSection k s)) as [Hin|Hin].
    + rewrite (bool_decide_eq_true_2 _ Hin).
      rewrite elem_of_difference, elem_of_singleton, Hflip.
      apply Hflip in Hin. intuition congruence.
    + rewrite (bool_decide_eq_false_2 _ Hin).
      rewrite elem_of_union, elem_of_singleton, Hflip.
      rewrite Hflip in Hin.
      destruct (decide (x = k)), (decide (k ∈ s)); intuition congruence.
  - rewrite Hflip. intuition congruence.
  - intros Hne. rewrite Hflip. intuition congruence.
Qed.

Lemma filter_has_value_false (l : list (string * LeadField)) :
  filter (λ kf, has_value kf.2 = false) l
  = filter (λ kf, ¬ (has_value kf.2 = true)) l.
Proof.
  apply list_filter_iff. intros kf. by destruct (has_value kf.2).
Qed.


(** X18. The field count in a section header is the number of fields shown
    in the primary grid, and with the number of empty fields it adds up to
    the number of fields of the section; the content is rendered exactly
    when the section is expanded. *)
Theorem header_count_is_populated_count (sectionKey : string)
    (section : LeadSection) (isExpanded : bool) :
  let a := AccordionSection sectionKey section isExpanded in
  let v := SectionContent section in
  header_fieldCount a = length (populated_grid v)
  ∧ (header_fieldCount a + length (empty_details v))%nat
    = length (fields section)
  ∧ (is_Some (content a) ↔ isExpanded = true).
Proof.
  simpl. rewrite !length_fmap. split; [done|]. split.
  - rewrite <- length_app, filter_has_value_false.
    by rewrite filter_app_complement.
  - destruct isExpanded; simpl.
    + split; [done | eauto].
    + split; [by intros [? ?] | done].
Qed.


End PanelFacts.

Section PanelViewFacts.
Import LeadInfoAccordion.

Lemma press_expand_all (d : LeadData) (s : gset string) :
  s ⊆ section_keys →
  press {| leadData := Some d; isLoading := false; error := None |}
    (expand_all_button s) s = section_keys.
Proof.
  intros Hs. unfold press, Dom.click. simpl.
  destruct (allExpanded s) eqn:He; [by apply allExpanded_iff | done].
Qed.

Lemma press_collapse_all (p : Props) (s : gset string) :
  press p (collapse_all_button s) s = ∅.
Proof.
  unfold press, Dom.click. simpl.
  destruct (allCollapsed s) eqn:He; [by apply allCollapsed_iff | done].
Qed.

(** X20. From a state within the eight keys, after a click on Expand All
    every section of the panel is rendered open with its content, and after
    a click on Collapse All every section is rendered closed without
    content. *)
Theorem expand_all_opens_every_section (d : LeadData) (s : gset string) :
  s ⊆ section_keys →
  let p := {| leadData := Some d; isLoading := false; error := None |} in
  Forall (λ a, header_isExpanded a = true ∧ is_Some (content a))
    (Observe.accordion_sections
       (render p (press p (expand_all_button s) s)))
  ∧ Forall (λ a, header_isExpanded a = false ∧ content a = None)
      (Observe.accordion_sections
         (render p (press p (collapse_all_button s) s))).
Proof.
  intros Hs p. subst p. rewrite press_expand_all, press_collapse_all by done.
  split; repeat constructor; eauto.
Qed.

Lemma toggled_membership (x k : string) (s : gset string) :
  bool_decide (x ∈ toggleSection k s)
  = if decide (x = k) then negb (bool_decide (k ∈ s))
    else bool_decide (x ∈ s).
Proof.
  unfold toggleSection.
  destruct (decide (k ∈ s)) as [Hin|Hin].
  - rewrite (bool_decide_eq_true_2 _ Hin). simpl.
    destruct (decide (x = k)) as [->|Hne].
    + apply bool_decide_eq_false_2.
      rewrite elem_of_difference, elem_of_singleton. tauto.
    + apply bool_decide_ext.
      rewrite elem_of_difference, elem_of_singleton. tauto.
  - rewrite (bool_decide_eq_false_2 _ Hin). simpl.
    destruct (decide (x = k)) as [->|Hne].
    + apply bool_decide_eq_true_2.
      rewrite elem_of_union, elem_of_singleton. tauto.
    + apply bool_decide_ext.
      rewrite elem_of_union, elem_of_singleton. tauto.
Qed.

(** X21. A click on the header of the i-th section of the panel flips the
    expanded flag of that section and leaves the flags of the other seven
    as they were. *)
Theorem section_header_toggles_its_section_only
    (d : LeadData) (s : gset string) (i : nat) (a : AccordionSectionView) :
  let p := {| leadData := Some d; isLoading := false; error := None |} in
  Observe.accordion_sections (render p s) !! i = Some a →
  header_isExpanded
    <$> Observe.accordion_sections (render p (press p (header_button a) s))
  = alter negb i (header_isExpanded <$> Observe.accordion_sections (render p s)).
Proof.
  intros p Ha. subst p. unfold render in *.
  cbn [isLoading error leadData Js.truthy_opt Observe.accordion_sections] in *.
  unfold sectionOrder in *. rewrite !fmap_cons, fmap_nil in *.
  do 8 (destruct i as [|i];
        [injection Ha as <-; unfold press, Dom.click; simpl;
         rewrite !toggled_membership;
         repeat (rewrite decide_True by done
                 || rewrite decide_False by done); done|]).
  done.
Qed.

End PanelViewFacts.

(** ** Closed instances *)

Lemma getPolygonColor_poly_prefix_witness :
  String.length "9C27B0" = 6%nat
  ∧ ServiceAreaLayers.getPolygonColor (Some "#poly-9C27B0-1200-179")
    = "#9C27B0".
Proof.
  split; [done|].
  apply (getPolygonColor_poly_prefix "9C27B0" "-1200-179"); reflexivity.
Defined.

Lemma layers_effect_fresh_map_witness :
  (ServiceAreaLayers.layers_effect true true
     (Some (Samples.dataset (Some "North Zone"))) ∅).2
  = [ServiceAreaLayers.AddSource "service-areas-0"
       [Samples.area (Some "North Zone")];
     ServiceAreaLayers.AddLayer "service-areas-fill-0" ServiceAreaLayers.fill
       "service-areas-0" "#9C27B0";
     ServiceAreaLayers.AddLayer "service-areas-line-0" ServiceAreaLayers.line
       "service-areas-0" "#9C27B0"].
Proof.
  rewrite (layers_effect_fresh_map (Samples.dataset (Some "North Zone")) ∅).
  - reflexivity.
  - intros j. apply not_elem_of_empty.
Defined.

Lemma earlier_failure_hides_later_response_witness :
  Js.NotAnError ≠ Js.Error ""
  ∧ ∃ m, CalendarHeatMap.render
           (CalendarHeatMap.fetchHeatMap_settle Samples.heat_props
              (inr Samples.heatmap)
              (CalendarHeatMap.fetchHeatMap_settle Samples.heat_props
                 (inl Js.NotAnError)
                 (CalendarHeatMap.fetchHeatMap_begin Samples.heat_props
                    (CalendarHeatMap.fetchHeatMap_begin Samples.heat_props
                       CalendarHeatMap.initial).1).1).1).1
         = CalendarHeatMap.ErrorView m CalendarHeatMap.retry_button.
Proof.
  split; [done|].
  apply (earlier_failure_hides_later_response Samples.heat_props
           Samples.heat_props CalendarHeatMap.initial Js.NotAnError
           Samples.heatmap).
  done.
Defined.

Lemma every_bucket_slot_has_one_button_witness :
  CalendarApi.ds_total_slots Samples.dayslots ≠ 0
  ∧ Observe.slot_actions (DaySlots.render Samples.slot_props
                            Samples.slots_loaded)
    = [DaySlots.SlotClick Samples.nine; DaySlots.SlotClick Samples.two_pm].
Proof.
  split; [done|].
  apply (every_bucket_slot_has_one_button Samples.slot_props Samples.dayslots).
  done.
Defined.

Lemma nonzero_total_without_slots_renders_blank_witness :
  CalendarApi.ds_total_slots Samples.dayslots_unfiled ≠ 0
  ∧ ∃ header,
      DaySlots.render Samples.slot_props
        {| DaySlots.loading := false;
           DaySlots.slotsData := Some Samples.dayslots_unfiled;
           DaySlots.error := None |}
      = DaySlots.Slots header (DaySlots.Periods []).
Proof.
  split; [done|].
  apply (nonzero_total_without_slots_renders_blank Samples.slot_props
           Samples.dayslots_unfiled); done.
Defined.

Lemma expand_all_opens_every_section_witness :
  (∅ : gset string) ⊆ LeadInfoAccordion.section_keys
  ∧ Forall (λ a, LeadInfoAccordion.header_isExpanded a = true
                 ∧ is_Some (LeadInfoAccordion.content a))
      (Observe.accordion_sections
         (LeadInfoAccordion.render Samples.lead_props
            (LeadInfoAccordion.press Samples.lead_props
               (LeadInfoAccordion.expand_all_button ∅) ∅))).
Proof.
  split; [apply empty_subseteq|].
  apply (expand_all_opens_every_section Samples.lead ∅).
  apply empty_subseteq.
Defined.

Lemma section_header_toggles_its_section_only_witness :
  let a := LeadInfoAccordion.AccordionSection "property"
             (LeadInfoAccordion.property
                (LeadInfoAccordion.sections Samples.lead)) true in
  Observe.accordion_sections
    (LeadInfoAccordion.render Samples.lead_props LeadInfoAccordion.initial)
    !! 2%nat = Some a
  ∧ LeadInfoAccordion.header_isExpanded
      <$> Observe.accordion_sections
            (LeadInfoAccordion.render Samples.lead_props
               (LeadInfoAccordion.press Samples.lead_props
                  (LeadInfoAccordion.header_button a)
                  LeadInfoAccordion.initial))
    = [true; true; false; true; true; true; true; true].
Proof.
  split; [reflexivity|].
  etrans.
  - apply (section_header_toggles_its_section_only Samples.lead
             LeadInfoAccordion.initial 2
             (LeadInfoAccordion.AccordionSection "property"
                (LeadInfoAccordion.property
                   (LeadInfoAccordion.sections Samples.lead)) true)).
    reflexivity.
  - reflexivity.
Defined.
